(** * futureInGolang: a shallow embedding of [main.go]

    The program is a single-value future: [ReturnAFuture] starts a goroutine
    that runs a task and hands its [Result] over an unbuffered channel; the
    caller retrieves it with [get] / [getWithTimeout], or gives up on it with
    [cancel].

    The [FutureTask] struct is embedded as a record, the goroutine as a small
    program counter, and every method as a function on the whole system state
    (struct, goroutine, and the observable effects: callback invocations and
    the lines printed).  The outcome of the one blocking point, the [select]
    of [getWithContext], is an explicit argument of the methods that reach it. *)

From Stdlib Require Import Bool List String ZArith Lia.
Import ListNotations.
Open Scope string_scope.

(** ** Errors

    Go's [error] is an interface; the program declares two concrete error
    types and a task may return a value of any other type implementing the
    interface.  An absent error ([nil]) is [None]. *)

Inductive GoError : Type :=
| TimeoutError (errorString : string)    (* &TimeoutError{errorString: ...} *)
| InterruptError (errorString : string)  (* &InterruptError{errorString: ...} *)
| TaskError (message : string).          (* any other error value of a task *)

(** The [Error() string] method of each error type. *)
Definition Error (e : GoError) : string :=
  match e with
  | TimeoutError s => s
  | InterruptError s => s
  | TaskError s => s
  end.

(** ** Result

    [value] is an [interface{}]: [None] is the nil interface, [Some v] a
    payload of the caller's type [V]. *)

Module Result.

Record t (V : Type) : Type := mk {
  value : option V;
  error : option GoError
}.
Arguments mk {V} _ _.
Arguments value {V} _.
Arguments error {V} _.

(** The zero value [Result{}]. *)
Definition zero {V : Type} : t V := mk None None.

(** [%v] applied to the [value] field; [fmtV] is the rendering [fmt] gives
    a payload, and the nil interface prints as [<nil>]. *)
Definition verb_v {V : Type} (fmtV : V -> string) (v : option V) : string :=
  match v with
  | None => "<nil>"
  | Some x => fmtV x
  end.

(** [func (result Result) String() string]. *)
Definition String {V : Type} (fmtV : V -> string) (result : t V) : string :=
  let err := "no" in
  let err := match error result with
             | Some e => Error e
             | None => err
             end in
  verb_v fmtV (value result) ++ " with (" ++ err ++ " error)".

End Result.

Abbreviation Result := Result.t.

(** ** The future and its goroutine *)

(** A callback is a [func()]; it is identified by a number and running it is
    recorded in the system's [invoked] log. *)
Definition callback : Type := nat.

Record FutureTask (V : Type) : Type := mkFutureTask {
  success : bool;
  error : option GoError;
  running : bool;
  done : bool;
  result : Result V;
  callbackMethod : option callback
}.
Arguments mkFutureTask {V} _ _ _ _ _ _.
Arguments success {V} _.
Arguments error {V} _.
Arguments running {V} _.
Arguments done {V} _.
Arguments result {V} _.
Arguments callbackMethod {V} _.

(** Where the goroutine started by [ReturnAFuture] stands.  The channel is
    unbuffered, so its state is determined by the goroutine: a sender waits
    on it exactly in [Sending], and it is closed from [Closed] on. *)
Inductive Goroutine (V : Type) : Type :=
| NotStarted                 (* spawned, [running = true] not yet executed *)
| Executing                  (* inside [task()] *)
| Sending (r : Result V)     (* blocked in [channelForExecution <- r] *)
| Delivered                  (* the send went through; deferred code pending *)
| Closed                     (* [close(channelForExecution)] done *)
| Exited.                    (* [running = false] done *)
Arguments NotStarted {V}.
Arguments Executing {V}.
Arguments Sending {V} _.
Arguments Delivered {V}.
Arguments Closed {V}.
Arguments Exited {V}.

Record Sys (V : Type) : Type := mkSys {
  fut : FutureTask V;            (* the struct behind the handle *)
  bg : Goroutine V;              (* the goroutine and, with it, the channel *)
  task : unit -> Result V;       (* the submitted computation *)
  invoked : list callback;       (* callbacks run so far, oldest first *)
  stdout : list string           (* lines printed so far, oldest first *)
}.
Arguments mkSys {V} _ _ _ _ _.
Arguments fut {V} _.
Arguments bg {V} _.
Arguments task {V} _.
Arguments invoked {V} _.
Arguments stdout {V} _.

(** The context handed to [getWithContext]: [context.Background()], whose
    [Done()] channel never becomes ready, or a context with a deadline
    [timeout] (a [time.Duration], in nanoseconds) after its creation. *)
Inductive GoContext : Type :=
| Background
| WithTimeout (timeout : Z).

(** The case of the [select] in [getWithContext] that fires.  Which one does
    is decided by the clock and the scheduler (and by [select] itself, at
    random, when both are ready), so it is an input of the model. *)
Inductive Ready : Type :=
| CtxDone     (* case <-ctx.Done() *)
| ChanRecv.   (* case futureTask.result = <-futureTask.channel *)

Section Future.

Context {V : Type}.

(** Field assignments. *)
Definition set_success (b : bool) (f : FutureTask V) : FutureTask V :=
  mkFutureTask b (error f) (running f) (done f) (result f) (callbackMethod f).

Definition set_error (e : option GoError) (f : FutureTask V) : FutureTask V :=
  mkFutureTask (success f) e (running f) (done f) (result f) (callbackMethod f).

Definition set_running (b : bool) (f : FutureTask V) : FutureTask V :=
  mkFutureTask (success f) (error f) b (done f) (result f) (callbackMethod f).

Definition set_done (b : bool) (f : FutureTask V) : FutureTask V :=
  mkFutureTask (success f) (error f) (running f) b (result f) (callbackMethod f).

Definition set_result (r : Result V) (f : FutureTask V) : FutureTask V :=
  mkFutureTask (success f) (error f) (running f) (done f) r (callbackMethod f).

Definition set_callbackMethod (c : option callback) (f : FutureTask V)
  : FutureTask V :=
  mkFutureTask (success f) (error f) (running f) (done f) (result f) c.

Definition with_fut (f : FutureTask V) (s : Sys V) : Sys V :=
  mkSys f (bg s) (task s) (invoked s) (stdout s).

Definition with_bg (g : Goroutine V) (s : Sys V) : Sys V :=
  mkSys (fut s) g (task s) (invoked s) (stdout s).

(** [fmt.Println(line)]. *)
Definition println (line : string) (s : Sys V) : Sys V :=
  mkSys (fut s) (bg s) (task s) (invoked s) (stdout s ++ [line]).

(** What [defer futureTask.callbackMethod()] leaves to run on return: the
    function value is read when the [defer] statement executes, and the
    statement is skipped when the field is nil. *)
Definition run_deferred (deferred : option callback) (s : Sys V) : Sys V :=
  match deferred with
  | Some c => mkSys (fut s) (bg s) (task s) (invoked s ++ [c]) (stdout s)
  | None => s
  end.

(** A receive on the channel: it takes the value of a waiting sender and
    lets the sender go on, yields the zero value on a closed channel, and is
    not ready ([None]) otherwise. *)
Definition chan_recv (g : Goroutine V) : option (Result V * Goroutine V) :=
  match g with
  | Sending r => Some (r, Delivered)
  | Closed => Some (Result.zero, Closed)
  | Exited => Some (Result.zero, Exited)
  | NotStarted | Executing | Delivered => None
  end.

(** [ctx.Done()] can be ready only for a context with a deadline. *)
Definition ctx_can_expire (ctx : GoContext) : bool :=
  match ctx with
  | Background => false
  | WithTimeout _ => true
  end.

(** [getWithContext]; [None] when the case [sel] of the [select] is not
    ready, that is, when the call does not return this way.  A call is taken
    as one step, at the moment its [select] fires, so the line printed on
    entry is recorded with that step: [stdout] lists the lines of the calls
    that have returned, and does not tell how long before its return a call
    printed. *)
Definition getWithContext (ctx : GoContext) (sel : Ready) (s : Sys V)
  : option (Sys V * Result V) :=
  let s := println "Executing getContext to receive from channel" s in
  match sel with
  | CtxDone =>
      if ctx_can_expire ctx then
        let f := fut s in
        let f := set_done true f in
        let f := set_success false f in
        let f := set_error (Some (TimeoutError "Request Timeout!")) f in
        let f := set_result (Result.mk None (error f)) f in
        Some (with_fut f s, result f)
      else None
  | ChanRecv =>
      match chan_recv (bg s) with
      | Some (r, g) =>
          let s := with_bg g s in
          let f := set_result r (fut s) in
          let f :=
            match Result.error (result f) with
            | Some _ =>
                let f := set_done true f in
                let f := set_success false f in
                set_error (Result.error (result f)) f
            | None =>
                let f := set_success true f in
                let f := set_done true f in
                set_error None f
            end in
          Some (with_fut f s, result f)
      | None => None
      end
  end.

(** [get]. *)
Definition get (sel : Ready) (s : Sys V) : option (Sys V * Result V) :=
  if done (fut s) then Some (s, result (fut s))
  else
    let deferred := callbackMethod (fut s) in
    let ctx := Background in
    match getWithContext ctx sel s with
    | Some (s', r) => Some (run_deferred deferred s', r)
    | None => None
    end.

(** [getWithTimeout]; the deferred [cancel()] of the context only releases
    its timer. *)
Definition getWithTimeout (timeout : Z) (sel : Ready) (s : Sys V)
  : option (Sys V * Result V) :=
  if done (fut s) then Some (s, result (fut s))
  else
    let deferred := callbackMethod (fut s) in
    let ctx := WithTimeout timeout in
    match getWithContext ctx sel s with
    | Some (s', r) => Some (run_deferred deferred s', r)
    | None => None
    end.

(** [isCancelled]. *)
Definition isCancelled (f : FutureTask V) : bool :=
  if done f then
    match error f with
    | Some e => if (Error e =? "Cancelled Manually")%string then true else false
    | None => false
    end
  else false.

(** [complete]. *)
Definition complete (f : FutureTask V) : bool :=
  if done f then true else false.

(** [isRunning]. *)
Definition isRunning (f : FutureTask V) : bool :=
  if running f then true else false.

(** [cancel]. *)
Definition cancel (s : Sys V) : Sys V * bool :=
  if complete (fut s) || isCancelled (fut s) || isRunning (fut s)
  then (s, false)
  else
    let deferred := callbackMethod (fut s) in
    let interruptionError := InterruptError "Cancelled Manually" in
    let f := fut s in
    let f := set_done true f in
    let f := set_success false f in
    let f := set_error (Some interruptionError) f in
    let f := set_result (Result.mk None (Some interruptionError)) f in
    (run_deferred deferred (with_fut f s), true).

(** [addDoneCallback]. *)
Definition addDoneCallback (callbackMethod : callback) (s : Sys V) : Sys V :=
  with_fut (set_callbackMethod (Some callbackMethod) (fut s)) s.

(** [ReturnAFuture]: the struct literal and the spawned goroutine, which has
    not run yet when the handle is returned. *)
Definition ReturnAFuture (task : unit -> Result V) : Sys V :=
  let futureObject :=
    mkFutureTask false None false false Result.zero None in
  mkSys futureObject NotStarted task [] [].

(** The goroutine's own steps; each is [None] when the goroutine is not at
    that point.  The send itself completes inside [chan_recv]. *)
Definition bg_start (s : Sys V) : option (Sys V) :=
  match bg s with
  | NotStarted => Some (with_bg Executing (with_fut (set_running true (fut s)) s))
  | _ => None
  end.

Definition bg_return (s : Sys V) : option (Sys V) :=
  match bg s with
  | Executing => let resultObject := task s tt in
                 Some (with_bg (Sending resultObject) s)
  | _ => None
  end.

Definition bg_close (s : Sys V) : option (Sys V) :=
  match bg s with
  | Delivered => Some (with_bg Closed s)
  | _ => None
  end.

Definition bg_exit (s : Sys V) : option (Sys V) :=
  match bg s with
  | Closed => Some (with_bg Exited (with_fut (set_running false (fut s)) s))
  | _ => None
  end.

End Future.

(** ** Executions

    One caller uses the handle while the goroutine runs: an execution is a
    sequence of goroutine steps and method calls, each call taken at the
    moment its [select] (if it reaches one) fires. *)

Inductive Event : Type :=
| EvBgStart
| EvBgReturn
| EvBgClose
| EvBgExit
| EvGet (sel : Ready)
| EvGetWithTimeout (timeout : Z) (sel : Ready)
| EvCancel
| EvIsCancelled
| EvIsRunning
| EvComplete
| EvAddDoneCallback (c : callback).

(** What a call hands back to the caller. *)
Inductive Ret (V : Type) : Type :=
| RetNone
| RetBool (b : bool)
| RetResult (r : Result V).
Arguments RetNone {V}.
Arguments RetBool {V} _.
Arguments RetResult {V} _.

Definition lift_bg {V : Type} (o : option (Sys V)) : option (Sys V * Ret V) :=
  match o with
  | Some s => Some (s, RetNone)
  | None => None
  end.

Definition lift_result {V : Type} (o : option (Sys V * Result V))
  : option (Sys V * Ret V) :=
  match o with
  | Some (s, r) => Some (s, RetResult r)
  | None => None
  end.

(** One event; [None] when it cannot happen in [s] (a goroutine step out of
    place, or a call whose [select] case is not ready). *)
Definition step {V : Type} (e : Event) (s : Sys V) : option (Sys V * Ret V) :=
  match e with
  | EvBgStart => lift_bg (bg_start s)
  | EvBgReturn => lift_bg (bg_return s)
  | EvBgClose => lift_bg (bg_close s)
  | EvBgExit => lift_bg (bg_exit s)
  | EvGet sel => lift_result (get sel s)
  | EvGetWithTimeout timeout sel => lift_result (getWithTimeout timeout sel s)
  | EvCancel => let (s', ok) := cancel s in Some (s', RetBool ok)
  | EvIsCancelled => Some (s, RetBool (isCancelled (fut s)))
  | EvIsRunning => Some (s, RetBool (isRunning (fut s)))
  | EvComplete => Some (s, RetBool (complete (fut s)))
  | EvAddDoneCallback c => Some (addDoneCallback c s, RetNone)
  end.

(** A sequence of events, with what each call returned. *)
Fixpoint run {V : Type} (s : Sys V) (evs : list Event)
  : option (Sys V * list (Ret V)) :=
  match evs with
  | [] => Some (s, [])
  | e :: evs' =>
      match step e s with
      | Some (s', r) =>
          match run s' evs' with
          | Some (s'', rs) => Some (s'', r :: rs)
          | None => None
          end
      | None => None
      end
  end.

(** The states an execution started by [ReturnAFuture] can reach. *)
Definition reachable {V : Type} (s : Sys V) : Prop :=
  exists (task : unit -> Result V) (evs : list Event) (rs : list (Ret V)),
    run (ReturnAFuture task) evs = Some (s, rs).

Definition is_register (e : Event) : bool :=
  match e with
  | EvAddDoneCallback _ => true
  | _ => false
  end.

(** The calls that can terminate a future. *)
Definition is_retrieval_or_cancel (e : Event) : bool :=
  match e with
  | EvGet _ | EvGetWithTimeout _ _ | EvCancel => true
  | _ => false
  end.

(** The terminal results the future fabricates itself. *)
Definition timeout_result {V : Type} : Result V :=
  Result.mk None (Some (TimeoutError "Request Timeout!")).

Definition cancelled_result {V : Type} : Result V :=
  Result.mk None (Some (InterruptError "Cancelled Manually")).

(** The driver of [main.go]: its first three futures, with the task's
    payload rendered as text. *)
Definition main_task_40 (_ : unit) : Result string := Result.mk (Some "40") None.
Definition main_task_53 (_ : unit) : Result string := Result.mk (Some "53") None.
Definition main_task_50 (_ : unit) : Result string := Result.mk (Some "50") None.

(** The state an execution leaves behind (the starting state if an event of
    the sequence cannot happen). *)
Definition after {V : Type} (s : Sys V) (evs : list Event) : Sys V :=
  match run s evs with
  | Some (s', _) => s'
  | None => s
  end.

(** A task of the caller's whose own error happens to read like a
    cancellation, and one whose error reads [no]. *)
Definition task_failing_as_cancelled (_ : unit) : Result string :=
  Result.mk None (Some (TaskError "Cancelled Manually")).

Definition result_failing_as_no : Result string :=
  Result.mk None (Some (TaskError "no")).

(** [%v] of a string payload is the string. *)
Definition render_text (s : string) : string := s.

(** The message [Result.String] puts between the parentheses. *)
Definition shown_error {V : Type} (r : Result V) : string :=
  match Result.error r with
  | Some e => Error e
  | None => "no"
  end.

(** The cached outcome is coherent: the stored error is the cached result's,
    and [success] says whether it is nil. *)
Definition coherent {V : Type} (f : FutureTask V) : Prop :=
  error f = Result.error (result f) /\ (success f = true <-> error f = None).

(** While nothing has been retrieved, the goroutine has not got past its
    send, and what it sends is the task's result. *)
Definition bg_before_delivery {V : Type} (s : Sys V) : Prop :=
  bg s = NotStarted \/ bg s = Executing \/ bg s = Sending (task s tt).

(** The goroutine is between its [running = true] and its
    [running = false]. *)
Definition goroutine_live {V : Type} (g : Goroutine V) : bool :=
  match g with
  | Executing | Sending _ | Delivered | Closed => true
  | NotStarted | Exited => false
  end.

(** The goroutine's send has gone through. *)
Definition past_delivery {V : Type} (g : Goroutine V) : bool :=
  match g with
  | Delivered | Closed | Exited => true
  | NotStarted | Executing | Sending _ => false
  end.

(** The calls, with what they returned, that observe or cause the end of
    a future: a retrieval that has returned, and a [cancel] that has
    returned [true]. *)
Definition observes_termination {V : Type} (e : Event) (r : Ret V) : bool :=
  match e, r with
  | EvGet _, RetResult _ => true
  | EvGetWithTimeout _ _, RetResult _ => true
  | EvCancel, RetBool true => true
  | _, _ => false
  end.

Definition observed_termination {V : Type} (evs : list Event)
           (rs : list (Ret V)) : bool :=
  existsb (fun p => observes_termination (fst p) (snd p)) (combine evs rs).

Definition is_bg_step (e : Event) : bool :=
  match e with
  | EvBgStart | EvBgReturn | EvBgClose | EvBgExit => true
  | _ => false
  end.

(** The three results a future can hold once done. *)
Definition task_timeout_or_cancelled {V : Type} (s : Sys V) (r : Result V)
  : Prop :=
  r = task s tt \/ r = timeout_result \/ r = cancelled_result.

(** What holds of the struct and the goroutine together in every state of
    an execution. *)
Definition well_formed {V : Type} (s : Sys V) : Prop :=
  running (fut s) = goroutine_live (bg s) /\
  (forall r : Result V, bg s = Sending r -> r = task s tt) /\
  (past_delivery (bg s) = true ->
   done (fut s) = true /\ result (fut s) = task s tt) /\
  (done (fut s) = true -> task_timeout_or_cancelled s (result (fut s))) /\
  (success (fut s) = true ->
   done (fut s) = true /\ result (fut s) = task s tt).

(** ** Strings *)

Lemma length_append (a b : string) :
  String.length (a ++ b) = String.length a + String.length b.
Proof. induction a as [|c a IH]; simpl; [reflexivity | now rewrite IH]. Qed.

Lemma append_inj_l (a b c : string) : a ++ b = a ++ c -> b = c.
Proof.
  induction a as [|x a IH]; simpl; intros H; [exact H|].
  injection H as H. now apply IH.
Qed.

Lemma append_inj_r (s a b : string) : a ++ s = b ++ s -> a = b.
Proof.
  revert b. induction a as [|x a IH]; intros [|y b] H; simpl in H.
  - reflexivity.
  - apply (f_equal String.length) in H. simpl in H.
    rewrite length_append in H. lia.
  - apply (f_equal String.length) in H. simpl in H.
    rewrite length_append in H. lia.
  - injection H as Hx H. subst y. f_equal. now apply IH.
Qed.

(** [Result.String] in one piece. *)
Lemma String_shown {V : Type} (fmtV : V -> string) (r : Result V) :
  Result.String fmtV r =
  Result.verb_v fmtV (Result.value r) ++ " with (" ++ shown_error r ++ " error)".
Proof. unfold Result.String, shown_error. now destruct (Result.error r). Qed.

(** With the value fixed, the rendering determines the shown message. *)
Lemma String_same_value_inj {V : Type} (fmtV : V -> string) (r1 r2 : Result V) :
  Result.value r1 = Result.value r2 ->
  Result.String fmtV r1 = Result.String fmtV r2 ->
  shown_error r1 = shown_error r2.
Proof.
  intros Hv H. rewrite !String_shown, Hv in H.
  apply append_inj_l in H. apply append_inj_l in H.
  now apply append_inj_r in H.
Qed.

(** ** Single steps *)

Ltac invert_some :=
  repeat match goal with
         | H : Some _ = Some _ |- _ => injection H as H; try subst
         | H : (_, _) = (_, _) |- _ => injection H as H; try subst
         | H : None = Some _ |- _ => discriminate H
         end.

(** A done future answers [get] from its cache and touches nothing. *)
Lemma get_done {V : Type} (s : Sys V) (sel : Ready) :
  done (fut s) = true -> get sel s = Some (s, result (fut s)).
Proof. intros H. unfold get. now rewrite H. Qed.

Lemma getWithTimeout_done {V : Type} (s : Sys V) (timeout : Z) (sel : Ready) :
  done (fut s) = true -> getWithTimeout timeout sel s = Some (s, result (fut s)).
Proof. intros H. unfold getWithTimeout. now rewrite H. Qed.

Lemma cancel_done {V : Type} (s : Sys V) :
  done (fut s) = true -> cancel s = (s, false).
Proof. intros H. unfold cancel, complete. now rewrite H. Qed.

(** Whatever way [getWithContext] returns, the future is done and coherent
    afterwards, and the result returned is the one cached. *)
Lemma getWithContext_post {V : Type} (ctx : GoContext) (sel : Ready)
      (s s' : Sys V) (r : Result V) :
  getWithContext ctx sel s = Some (s', r) ->
  done (fut s') = true /\ result (fut s') = r /\ coherent (fut s') /\
  callbackMethod (fut s') = callbackMethod (fut s) /\
  invoked s' = invoked s /\ task s' = task s.
Proof.
  unfold getWithContext, coherent. destruct sel.
  - destruct (ctx_can_expire ctx); [|discriminate].
    intros H; invert_some. simpl. repeat split; try reflexivity; discriminate.
  - simpl. destruct (chan_recv (bg s)) as [[r0 g0]|]; [|discriminate].
    simpl. destruct (Result.error r0) eqn:E; intros H; invert_some; simpl;
      rewrite ?E; repeat split; auto; discriminate.
Qed.

Lemma run_deferred_fut {V : Type} (d : option callback) (s : Sys V) :
  fut (run_deferred d s) = fut s /\ bg (run_deferred d s) = bg s /\
  task (run_deferred d s) = task s.
Proof. destruct d; simpl; auto. Qed.

(** Once done, no event changes the cached outcome or runs a callback. *)
Lemma step_done_sticky {V : Type} (e : Event) (s s' : Sys V) (r : Ret V) :
  done (fut s) = true -> step e s = Some (s', r) ->
  done (fut s') = true /\ success (fut s') = success (fut s) /\
  error (fut s') = error (fut s) /\ result (fut s') = result (fut s) /\
  invoked s' = invoked s.
Proof.
  intros Hd H. destruct e; simpl in H.
  - unfold bg_start in H. destruct (bg s); simpl in H; invert_some; simpl; auto.
  - unfold bg_return in H. destruct (bg s); simpl in H; invert_some; simpl; auto.
  - unfold bg_close in H. destruct (bg s); simpl in H; invert_some; simpl; auto.
  - unfold bg_exit in H. destruct (bg s); simpl in H; invert_some; simpl; auto.
  - rewrite (get_done s sel Hd) in H. simpl in H. invert_some. auto.
  - rewrite (getWithTimeout_done s timeout sel Hd) in H. simpl in H.
    invert_some. auto.
  - rewrite (cancel_done s Hd) in H. invert_some. auto.
  - invert_some. auto.
  - invert_some. auto.
  - invert_some. auto.
  - invert_some. simpl. auto.
Qed.

Lemma run_done_sticky {V : Type} (evs : list Event) :
  forall (s s' : Sys V) (rs : list (Ret V)),
    done (fut s) = true -> run s evs = Some (s', rs) ->
    done (fut s') = true /\ success (fut s') = success (fut s) /\
    error (fut s') = error (fut s) /\ result (fut s') = result (fut s) /\
    invoked s' = invoked s.
Proof.
  induction evs as [|e evs IH]; intros s s' rs Hd H; simpl in H.
  - invert_some. auto.
  - destruct (step e s) as [[s1 r1]|] eqn:E; [|discriminate].
    destruct (run s1 evs) as [[s2 rs2]|] eqn:R; [|discriminate].
    invert_some.
    destruct (step_done_sticky e s s1 r1 Hd E) as (Hd1 & Hs & He & Hr & Hi).
    destruct (IH s1 s' rs2 Hd1 R) as (Hd2 & Hs2 & He2 & Hr2 & Hi2).
    repeat split; congruence.
Qed.

(** What one event does to a future that is not done: either it leaves it
    not done and runs no callback, or it is a retrieval or a cancel, the
    future is done and coherent afterwards, and the callback registered at
    that moment (if any) has run once. *)
Lemma step_not_done {V : Type} (e : Event) (s s' : Sys V) (r : Ret V) :
  done (fut s) = false -> step e s = Some (s', r) ->
  (done (fut s') = false /\ invoked s' = invoked s /\
   (is_register e = false -> callbackMethod (fut s') = callbackMethod (fut s)))
  \/
  (done (fut s') = true /\ coherent (fut s') /\
   is_retrieval_or_cancel e = true /\
   callbackMethod (fut s') = callbackMethod (fut s) /\
   invoked s' = (invoked s ++ match callbackMethod (fut s) with
                              | Some c => [c]
                              | None => []
                              end)%list).
Proof.
  intros Hd H. destruct e; simpl in H.
  - left. unfold bg_start in H. destruct (bg s); simpl in H; invert_some; simpl; auto.
  - left. unfold bg_return in H. destruct (bg s); simpl in H; invert_some; simpl; auto.
  - left. unfold bg_close in H. destruct (bg s); simpl in H; invert_some; simpl; auto.
  - left. unfold bg_exit in H. destruct (bg s); simpl in H; invert_some; simpl; auto.
  - right. unfold get in H. rewrite Hd in H.
    destruct (getWithContext Background sel s) as [[s1 r1]|] eqn:G;
      simpl in H; invert_some.
    destruct (getWithContext_post _ _ _ _ _ G) as (D & _ & C & Hc & Hi & _).
    destruct (callbackMethod (fut s)) eqn:Ecb; simpl;
      rewrite ?Hi, ?app_nil_r; repeat split; auto; try congruence; apply C.
  - right. unfold getWithTimeout in H. rewrite Hd in H.
    destruct (getWithContext (WithTimeout timeout) sel s) as [[s1 r1]|] eqn:G;
      simpl in H; invert_some.
    destruct (getWithContext_post _ _ _ _ _ G) as (D & _ & C & Hc & Hi & _).
    destruct (callbackMethod (fut s)) eqn:Ecb; simpl;
      rewrite ?Hi, ?app_nil_r; repeat split; auto; try congruence; apply C.
  - unfold cancel in H.
    destruct (complete (fut s) || isCancelled (fut s) || isRunning (fut s)).
    + left. invert_some. auto.
    + right. invert_some.
      destruct (callbackMethod (fut s)) eqn:Ecb; simpl; rewrite ?app_nil_r;
        unfold coherent; simpl; repeat split; auto; discriminate.
  - left. invert_some. auto.
  - left. invert_some. auto.
  - left. invert_some. auto.
  - left. invert_some. simpl. repeat split; auto. discriminate.
Qed.

(** No event replaces the task. *)
Lemma step_task {V : Type} (e : Event) (s s' : Sys V) (r : Ret V) :
  step e s = Some (s', r) -> task s' = task s.
Proof.
  intros H. destruct e; simpl in H.
  - unfold bg_start in H. destruct (bg s); simpl in H; invert_some; auto.
  - unfold bg_return in H. destruct (bg s); simpl in H; invert_some; auto.
  - unfold bg_close in H. destruct (bg s); simpl in H; invert_some; auto.
  - unfold bg_exit in H. destruct (bg s); simpl in H; invert_some; auto.
  - unfold get in H. destruct (done (fut s)); simpl in H; invert_some; auto.
    destruct (getWithContext Background sel s) as [[s1 r1]|] eqn:G;
      simpl in H; invert_some.
    destruct (getWithContext_post _ _ _ _ _ G) as (_ & _ & _ & _ & _ & T).
    now destruct (run_deferred_fut (callbackMethod (fut s)) s1) as (_ & _ & ->).
  - unfold getWithTimeout in H.
    destruct (done (fut s)); simpl in H; invert_some; auto.
    destruct (getWithContext (WithTimeout timeout) sel s) as [[s1 r1]|] eqn:G;
      simpl in H; invert_some.
    destruct (getWithContext_post _ _ _ _ _ G) as (_ & _ & _ & _ & _ & T).
    now destruct (run_deferred_fut (callbackMethod (fut s)) s1) as (_ & _ & ->).
  - unfold cancel in H.
    destruct (complete (fut s) || isCancelled (fut s) || isRunning (fut s));
      invert_some; auto.
    now destruct (callbackMethod (fut s)).
  - invert_some. auto.
  - invert_some. auto.
  - invert_some. auto.
  - invert_some. auto.
Qed.

(** Coherence of a done future is kept by every event. *)
Lemma step_coherent {V : Type} (e : Event) (s s' : Sys V) (r : Ret V) :
  (done (fut s) = true -> coherent (fut s)) ->
  step e s = Some (s', r) ->
  done (fut s') = true -> coherent (fut s').
Proof.
  intros Inv H Hd'. destruct (done (fut s)) eqn:Hd.
  - destruct (step_done_sticky e s s' r Hd H) as (_ & Hs & He & Hr & _).
    specialize (Inv eq_refl). unfold coherent in *. now rewrite Hs, He, Hr.
  - destruct (step_not_done e s s' r Hd H) as [(F & _)|(_ & C & _)];
      [congruence | exact C].
Qed.

(** The goroutine stays before its delivery as long as the future is not
    done. *)
Lemma step_bg_before_delivery {V : Type} (e : Event) (s s' : Sys V) (r : Ret V) :
  (done (fut s) = false -> bg_before_delivery s) ->
  step e s = Some (s', r) ->
  done (fut s') = false -> bg_before_delivery s'.
Proof.
  intros Inv H Hd'. destruct (done (fut s)) eqn:Hd.
  - destruct (step_done_sticky e s s' r Hd H) as (F & _). congruence.
  - specialize (Inv eq_refl). unfold bg_before_delivery in *.
    pose proof (step_task e s s' r H) as T. rewrite T.
    destruct e; simpl in H.
    + unfold bg_start in H. destruct (bg s); simpl in H; invert_some; simpl; auto.
    + unfold bg_return in H. destruct (bg s); simpl in H; invert_some; simpl; auto.
    + unfold bg_close in H.
      destruct Inv as [E|[E|E]]; rewrite E in H; discriminate.
    + unfold bg_exit in H.
      destruct Inv as [E|[E|E]]; rewrite E in H; discriminate.
    + destruct (step_not_done (EvGet sel) s s' r Hd H) as [(_ & _ & _)|(F & _)];
        [|congruence].
      unfold get in H. rewrite Hd in H.
      destruct (getWithContext Background sel s) as [[s1 r1]|] eqn:G;
        simpl in H; invert_some.
      destruct (getWithContext_post _ _ _ _ _ G) as (D & _).
      destruct (run_deferred_fut (callbackMethod (fut s)) s1) as (Ef & _).
      rewrite Ef in Hd'. congruence.
    + unfold getWithTimeout in H. rewrite Hd in H.
      destruct (getWithContext (WithTimeout timeout) sel s) as [[s1 r1]|] eqn:G;
        simpl in H; invert_some.
      destruct (getWithContext_post _ _ _ _ _ G) as (D & _).
      destruct (run_deferred_fut (callbackMethod (fut s)) s1) as (Ef & _).
      rewrite Ef in Hd'. congruence.
    + unfold cancel in H.
      destruct (complete (fut s) || isCancelled (fut s) || isRunning (fut s));
        invert_some; auto.
      destruct (run_deferred_fut (callbackMethod (fut s))
                  (with_fut (set_result (Result.mk None (Some (InterruptError "Cancelled Manually")))
                     (set_error (Some (InterruptError "Cancelled Manually"))
                        (set_success false (set_done true (fut s))))) s)) as (Ef & _).
      rewrite Ef in Hd'. simpl in Hd'. discriminate.
    + invert_some. auto.
    + invert_some. auto.
    + invert_some. auto.
    + invert_some. simpl. auto.
Qed.

(** An invariant of single steps that holds of a fresh future holds of every
    reachable state. *)
Lemma reachable_ind {V : Type} (P : Sys V -> Prop) :
  (forall task, P (ReturnAFuture task)) ->
  (forall e s s' r, P s -> step e s = Some (s', r) -> P s') ->
  forall s, reachable s -> P s.
Proof.
  intros Hinit Hstep s (tk & evs & rs & R).
  assert (G : forall evs (s0 s1 : Sys V) rs, P s0 -> run s0 evs = Some (s1, rs) -> P s1).
  { clear - Hstep. induction evs as [|e evs IH]; intros s0 s1 rs P0 R; simpl in R.
    - invert_some. exact P0.
    - destruct (step e s0) as [[s2 r2]|] eqn:E; [|discriminate].
      destruct (run s2 evs) as [[s3 rs3]|] eqn:R'; [|discriminate].
      invert_some. eapply IH; [|exact R']. eapply Hstep; eauto. }
  eapply G; [apply Hinit | exact R].
Qed.

(** ** The retrieval and cancellation contracts *)

(** C1.  When the deadline case of the [select] fires in [getWithTimeout] on
    a future that is not done, the call returns the fabricated timeout
    result, having set [done = true], [success = false], the error to a
    [TimeoutError] and the cached result to one carrying that error; the
    goroutine is left where it was.  After that, whatever happens next
    (the task returning, further calls), every [get] returns the cached
    timeout result and leaves the state alone. *)
Theorem getWithTimeout_deadline_is_final :
  forall (V : Type) (s : Sys V) (timeout : Z),
    done (fut s) = false ->
    exists s1 : Sys V,
      getWithTimeout timeout CtxDone s = Some (s1, timeout_result) /\
      done (fut s1) = true /\
      success (fut s1) = false /\
      error (fut s1) = Some (TimeoutError "Request Timeout!") /\
      result (fut s1) = timeout_result /\
      Result.error (result (fut s1)) = error (fut s1) /\
      bg s1 = bg s /\
      forall (evs : list Event) (s2 : Sys V) (rs : list (Ret V)),
        run s1 evs = Some (s2, rs) ->
        forall sel : Ready, get sel s2 = Some (s2, timeout_result).
Proof.
  intros V s timeout Hd.
  unfold getWithTimeout. rewrite Hd. simpl.
  eexists. split; [reflexivity|].
  destruct (callbackMethod (fut s)); simpl;
    (repeat split; try reflexivity;
     intros evs s2 rs R sel;
     match type of R with
     | run ?s1 _ = _ =>
         destruct (run_done_sticky evs s1 s2 rs eq_refl R) as (D & _ & _ & Hr & _)
     end;
     rewrite (get_done s2 sel D), Hr; reflexivity).
Qed.

Lemma getWithTimeout_deadline_is_final_witness :
  get ChanRecv
    (after (ReturnAFuture main_task_53)
       [EvBgStart; EvGetWithTimeout 1000000000 CtxDone; EvBgReturn]) =
  Some (after (ReturnAFuture main_task_53)
          [EvBgStart; EvGetWithTimeout 1000000000 CtxDone; EvBgReturn],
        timeout_result).
Proof.
  destruct (getWithTimeout_deadline_is_final string
              (after (ReturnAFuture main_task_53) [EvBgStart]) 1000000000 eq_refl)
    as (s1 & G & _ & _ & _ & _ & _ & _ & L).
  vm_compute in G. injection G as G. subst s1.
  apply (L [EvBgReturn] _ [RetNone]). reflexivity.
Defined.

(** C2.  [cancel] returns [true] exactly when the future is not done, not
    cancelled and not running at the call; when it does, the future is done
    with [success = false], the error and the cached result carry the
    "Cancelled Manually" [InterruptError], and the goroutine (hence the
    channel) is as before: nothing was received. *)
Theorem cancel_true_iff_pending :
  forall (V : Type) (s : Sys V),
    (snd (cancel s) = true <->
     done (fut s) = false /\ isCancelled (fut s) = false /\
     running (fut s) = false) /\
    (snd (cancel s) = true ->
     done (fut (fst (cancel s))) = true /\
     success (fut (fst (cancel s))) = false /\
     error (fut (fst (cancel s))) = Some (InterruptError "Cancelled Manually") /\
     result (fut (fst (cancel s))) = cancelled_result /\
     bg (fst (cancel s)) = bg s).
Proof.
  intros V s. unfold cancel, complete, isRunning, isCancelled.
  destruct (done (fut s)) eqn:Hd; simpl.
  - split; [split; [discriminate | intros (F & _); discriminate] | discriminate].
  - destruct (running (fut s)) eqn:Hr; simpl.
    + split; [split; [discriminate | intros (_ & _ & F); discriminate]
             | discriminate].
    + split; [split; auto|].
      intros _. destruct (callbackMethod (fut s)); simpl; auto.
Qed.

Lemma cancel_true_iff_pending_witness :
  snd (cancel (ReturnAFuture main_task_50)) = true /\
  done (fut (fst (cancel (ReturnAFuture main_task_50)))) = true /\
  success (fut (fst (cancel (ReturnAFuture main_task_50)))) = false /\
  error (fut (fst (cancel (ReturnAFuture main_task_50)))) =
    Some (InterruptError "Cancelled Manually") /\
  result (fut (fst (cancel (ReturnAFuture main_task_50)))) = cancelled_result /\
  bg (fst (cancel (ReturnAFuture main_task_50))) = NotStarted.
Proof.
  split; [reflexivity|].
  apply (proj2 (cancel_true_iff_pending string (ReturnAFuture main_task_50))).
  reflexivity.
Defined.

(** C4.  On a done future [get] returns the cached result and leaves the
    whole state as it was: no receive, no print, no callback.  Hence after
    any [get] that returned, a second [get] returns the same result and
    changes nothing. *)
Theorem get_done_is_cached :
  forall (V : Type) (s : Sys V),
    (done (fut s) = true ->
     forall sel : Ready, get sel s = Some (s, result (fut s))) /\
    (forall (sel : Ready) (s1 : Sys V) (r1 : Result V),
        get sel s = Some (s1, r1) ->
        forall sel' : Ready, get sel' s1 = Some (s1, r1)).
Proof.
  intros V s. split.
  - intros Hd sel. now apply get_done.
  - intros sel s1 r1 G sel'. unfold get in G.
    destruct (done (fut s)) eqn:Hd.
    + invert_some. now apply get_done.
    + destruct (getWithContext Background sel s) as [[s2 r2]|] eqn:W;
        invert_some.
      destruct (getWithContext_post _ _ _ _ _ W) as (D & Hr & _).
      destruct (run_deferred_fut (callbackMethod (fut s)) s2) as (Ef & _).
      rewrite get_done; rewrite Ef; [now rewrite Hr | exact D].
Qed.

Lemma get_done_is_cached_witness :
  get CtxDone (after (ReturnAFuture main_task_40)
                 [EvBgStart; EvBgReturn; EvGet ChanRecv]) =
  Some (after (ReturnAFuture main_task_40)
          [EvBgStart; EvBgReturn; EvGet ChanRecv],
        main_task_40 tt).
Proof.
  apply (proj2 (get_done_is_cached string
                  (after (ReturnAFuture main_task_40) [EvBgStart; EvBgReturn]))
           ChanRecv).
  reflexivity.
Defined.

(** C5.  When the receive case fires with a result [r] (handed over by the
    waiting sender), [getWithContext] caches [r] and returns it as it is;
    the future is done, its error is the error of [r], and [success] is
    [false] when that error is present and [true] when it is nil.  [get] and
    [getWithTimeout] on a future that is not done return the same and do the
    same bookkeeping. *)
Theorem receive_caches_and_returns :
  forall (V : Type) (s : Sys V) (r : Result V) (g : Goroutine V)
         (ctx : GoContext),
    chan_recv (bg s) = Some (r, g) ->
    exists s' : Sys V,
      getWithContext ctx ChanRecv s = Some (s', r) /\
      result (fut s') = r /\
      done (fut s') = true /\
      error (fut s') = Result.error r /\
      success (fut s') = match Result.error r with
                         | Some _ => false
                         | None => true
                         end /\
      bg s' = g /\
      (done (fut s) = false ->
       forall timeout : Z,
         get ChanRecv s = Some (run_deferred (callbackMethod (fut s)) s', r) /\
         getWithTimeout timeout ChanRecv s =
           Some (run_deferred (callbackMethod (fut s)) s', r) /\
         fut (run_deferred (callbackMethod (fut s)) s') = fut s').
Proof.
  intros V s r g ctx R.
  unfold get, getWithTimeout, getWithContext. simpl. rewrite R. simpl.
  destruct (Result.error r) eqn:E; simpl;
    (eexists; split; [reflexivity|]; simpl; rewrite ?E;
     repeat split; try reflexivity;
     try (match goal with
          | Hd : done (fut s) = false |- _ => rewrite Hd
          end; reflexivity);
     destruct (callbackMethod (fut s)); reflexivity).
Qed.

Lemma receive_caches_and_returns_witness :
  get ChanRecv (after (ReturnAFuture main_task_40) [EvBgStart; EvBgReturn]) =
  Some (after (ReturnAFuture main_task_40)
          [EvBgStart; EvBgReturn; EvGet ChanRecv],
        main_task_40 tt).
Proof.
  destruct (receive_caches_and_returns string
              (after (ReturnAFuture main_task_40) [EvBgStart; EvBgReturn])
              (main_task_40 tt) Delivered Background eq_refl)
    as (s' & G & _ & _ & _ & _ & _ & L).
  vm_compute in G. injection G as G. subst s'.
  exact (proj1 (L eq_refl 0%Z)).
Defined.

(** C7.  When the future is done, cancelled or running, [cancel] returns
    [false] and the state after the call is the state before it: no field of
    the future changes, no callback runs. *)
Theorem cancel_refused_changes_nothing :
  forall (V : Type) (s : Sys V),
    done (fut s) = true \/ isCancelled (fut s) = true \/ running (fut s) = true ->
    cancel s = (s, false).
Proof.
  intros V s H. unfold cancel, complete, isRunning.
  destruct (done (fut s)) eqn:Hd; [reflexivity|].
  destruct H as [F|[C|R]].
  - discriminate.
  - unfold isCancelled in C. rewrite Hd in C. discriminate.
  - rewrite R. simpl. now rewrite orb_true_r.
Qed.

Lemma cancel_refused_changes_nothing_witness :
  cancel (after (ReturnAFuture main_task_50) [EvBgStart]) =
  (after (ReturnAFuture main_task_50) [EvBgStart], false).
Proof.
  apply cancel_refused_changes_nothing. right. right. reflexivity.
Defined.

(** ** Callbacks *)

(** Only [addDoneCallback] writes the callback slot. *)
Lemma step_callbackMethod {V : Type} (e : Event) (s s' : Sys V) (r : Ret V) :
  is_register e = false -> step e s = Some (s', r) ->
  callbackMethod (fut s') = callbackMethod (fut s).
Proof.
  intros Hreg H. destruct (done (fut s)) eqn:Hd.
  - destruct e; simpl in H; try discriminate Hreg.
    + unfold bg_start in H. destruct (bg s); simpl in H; invert_some; auto.
    + unfold bg_return in H. destruct (bg s); simpl in H; invert_some; auto.
    + unfold bg_close in H. destruct (bg s); simpl in H; invert_some; auto.
    + unfold bg_exit in H. destruct (bg s); simpl in H; invert_some; auto.
    + rewrite (get_done s sel Hd) in H. simpl in H. invert_some. auto.
    + rewrite (getWithTimeout_done s timeout sel Hd) in H. simpl in H.
      invert_some. auto.
    + rewrite (cancel_done s Hd) in H. invert_some. auto.
    + invert_some. auto.
    + invert_some. auto.
    + invert_some. auto.
  - destruct (step_not_done e s s' r Hd H) as [(_ & _ & K)|(_ & _ & _ & K & _)];
      auto.
Qed.

(** Events other than retrievals and cancels neither terminate the future
    nor run a callback. *)
Lemma step_no_call {V : Type} (e : Event) (s s' : Sys V) (r : Ret V) :
  is_retrieval_or_cancel e = false -> step e s = Some (s', r) ->
  done (fut s') = done (fut s) /\ invoked s' = invoked s.
Proof.
  intros Hc H. destruct (done (fut s)) eqn:Hd.
  - destruct (step_done_sticky e s s' r Hd H) as (D & _ & _ & _ & I). auto.
  - destruct (step_not_done e s s' r Hd H) as [(D & I & _)|(_ & _ & F & _)];
      [auto | congruence].
Qed.

Lemma run_no_call {V : Type} (evs : list Event) :
  forall (s s' : Sys V) (rs : list (Ret V)),
    forallb (fun e => negb (is_retrieval_or_cancel e)) evs = true ->
    run s evs = Some (s', rs) ->
    done (fut s') = done (fut s) /\ invoked s' = invoked s.
Proof.
  induction evs as [|e evs IH]; intros s s' rs Hall R; simpl in *.
  - invert_some. auto.
  - apply andb_true_iff in Hall. destruct Hall as (He & Hall).
    apply negb_true_iff in He.
    destruct (step e s) as [[s1 r1]|] eqn:E; [|discriminate].
    destruct (run s1 evs) as [[s2 rs2]|] eqn:R'; [|discriminate].
    invert_some.
    destruct (step_no_call e s s1 r1 He E) as (D1 & I1).
    destruct (IH s1 s' rs2 Hall R') as (D2 & I2). split; congruence.
Qed.

(** With [cb] in the slot and no further registration, the log of callback
    runs grows by exactly one [cb], at the step that makes the future done. *)
Lemma run_callback_log {V : Type} (cb : callback) (base : list callback)
      (evs : list Event) :
  forall (s s' : Sys V) (rs : list (Ret V)),
    callbackMethod (fut s) = Some cb ->
    invoked s = (base ++ if done (fut s) then [cb] else [])%list ->
    forallb (fun e => negb (is_register e)) evs = true ->
    run s evs = Some (s', rs) ->
    invoked s' = (base ++ if done (fut s') then [cb] else [])%list.
Proof.
  induction evs as [|e evs IH]; intros s s' rs Hcb Hlog Hall R; simpl in *.
  - invert_some. exact Hlog.
  - apply andb_true_iff in Hall. destruct Hall as (He & Hall).
    apply negb_true_iff in He.
    destruct (step e s) as [[s1 r1]|] eqn:E; [|discriminate].
    destruct (run s1 evs) as [[s2 rs2]|] eqn:R'; [|discriminate].
    invert_some.
    pose proof (step_callbackMethod e s s1 r1 He E) as K.
    apply (IH s1 s' rs2); auto; [congruence|].
    destruct (done (fut s)) eqn:Hd.
    + destruct (step_done_sticky e s s1 r1 Hd E) as (D & _ & _ & _ & I).
      now rewrite D, I.
    + destruct (step_not_done e s s1 r1 Hd E) as [(D & I & _)|(D & _ & _ & _ & I)].
      * now rewrite D, I.
      * rewrite D, I, Hlog, Hcb, app_nil_r. reflexivity.
Qed.

(** A future that is not done becomes done exactly by a retrieval that
    returns or a [cancel] that returns [true]. *)
Lemma step_observes {V : Type} (e : Event) (s s' : Sys V) (r : Ret V) :
  done (fut s) = false -> step e s = Some (s', r) ->
  done (fut s') = observes_termination e r.
Proof.
  intros Hd H. destruct e; simpl in H.
  - unfold bg_start in H. destruct (bg s); simpl in H; invert_some; auto.
  - unfold bg_return in H. destruct (bg s); simpl in H; invert_some; auto.
  - unfold bg_close in H. destruct (bg s); simpl in H; invert_some; auto.
  - unfold bg_exit in H. destruct (bg s); simpl in H; invert_some; auto.
  - unfold get in H. rewrite Hd in H.
    destruct (getWithContext Background sel s) as [[s1 r1]|] eqn:G;
      simpl in H; invert_some.
    destruct (getWithContext_post _ _ _ _ _ G) as (D & _).
    destruct (run_deferred_fut (callbackMethod (fut s)) s1) as (Ef & _).
    rewrite Ef. exact D.
  - unfold getWithTimeout in H. rewrite Hd in H.
    destruct (getWithContext (WithTimeout timeout) sel s) as [[s1 r1]|] eqn:G;
      simpl in H; invert_some.
    destruct (getWithContext_post _ _ _ _ _ G) as (D & _).
    destruct (run_deferred_fut (callbackMethod (fut s)) s1) as (Ef & _).
    rewrite Ef. exact D.
  - unfold cancel in H.
    destruct (complete (fut s) || isCancelled (fut s) || isRunning (fut s));
      invert_some; simpl; auto.
    now destruct (callbackMethod (fut s)).
  - invert_some. simpl. now destruct (isCancelled (fut s')).
  - invert_some. simpl. now destruct (isRunning (fut s')).
  - invert_some. simpl. now destruct (complete (fut s')).
  - invert_some. auto.
Qed.

Lemma run_observes {V : Type} (evs : list Event) :
  forall (s s' : Sys V) (rs : list (Ret V)),
    done (fut s) = false -> run s evs = Some (s', rs) ->
    done (fut s') = observed_termination evs rs.
Proof.
  unfold observed_termination.
  induction evs as [|e evs IH]; intros s s' rs Hd R; simpl in R.
  - invert_some. exact Hd.
  - destruct (step e s) as [[s1 r1]|] eqn:E; [|discriminate].
    destruct (run s1 evs) as [[s2 rs2]|] eqn:R'; [|discriminate].
    invert_some. simpl.
    pose proof (step_observes e s s1 r1 Hd E) as O. rewrite <- O.
    destruct (done (fut s1)) eqn:D1; simpl.
    + now destruct (run_done_sticky evs s1 s' rs2 D1 R') as (D2 & _).
    + now apply (IH s1 s' rs2).
Qed.

Lemma run_callbackMethod {V : Type} (evs : list Event) :
  forall (s s' : Sys V) (rs : list (Ret V)),
    forallb (fun e => negb (is_register e)) evs = true ->
    run s evs = Some (s', rs) ->
    callbackMethod (fut s') = callbackMethod (fut s).
Proof.
  induction evs as [|e evs IH]; intros s s' rs Hall R; simpl in *.
  - invert_some. reflexivity.
  - apply andb_true_iff in Hall. destruct Hall as (He & Hall).
    apply negb_true_iff in He.
    destruct (step e s) as [[s1 r1]|] eqn:E; [|discriminate].
    destruct (run s1 evs) as [[s2 rs2]|] eqn:R'; [|discriminate].
    invert_some. rewrite (IH s1 s' rs2 Hall R').
    now apply (step_callbackMethod e s s1 r1).
Qed.

(** On a future that is not done and holds [cb] in its slot, each of the
    three calls runs [cb] when it terminates the future, and each does
    terminate it when it can: [getWithTimeout] through its deadline, [get]
    when a result is ready on the channel, [cancel] when the goroutine is
    not running. *)
Lemma calls_run_registered_callback {V : Type} (s : Sys V) (cb : callback) :
  done (fut s) = false -> callbackMethod (fut s) = Some cb ->
  (forall (sel : Ready) (s1 : Sys V) (r : Result V),
      get sel s = Some (s1, r) ->
      done (fut s1) = true /\ invoked s1 = (invoked s ++ [cb])%list) /\
  (forall (timeout : Z) (sel : Ready) (s1 : Sys V) (r : Result V),
      getWithTimeout timeout sel s = Some (s1, r) ->
      done (fut s1) = true /\ invoked s1 = (invoked s ++ [cb])%list) /\
  (snd (cancel s) = true ->
   done (fut (fst (cancel s))) = true /\
   invoked (fst (cancel s)) = (invoked s ++ [cb])%list) /\
  (forall timeout : Z,
      exists s1 : Sys V,
        getWithTimeout timeout CtxDone s = Some (s1, timeout_result)) /\
  (forall (r : Result V) (g : Goroutine V),
      chan_recv (bg s) = Some (r, g) ->
      exists s1 : Sys V, get ChanRecv s = Some (s1, r)) /\
  (running (fut s) = false -> snd (cancel s) = true).
Proof.
  intros Hd Hcb.
  assert (Hget : forall sel s1 r, get sel s = Some (s1, r) ->
                 done (fut s1) = true /\ invoked s1 = (invoked s ++ [cb])%list).
  { intros sel s1 r G.
    destruct (step_not_done (EvGet sel) s s1 (RetResult r) Hd)
      as [(F & _)|(D & _ & _ & _ & I)].
    - simpl. now rewrite G.
    - pose proof (step_observes (EvGet sel) s s1 (RetResult r) Hd) as O.
      simpl in O. rewrite G in O. specialize (O eq_refl). congruence.
    - rewrite Hcb in I. auto. }
  assert (Hgwt : forall timeout sel s1 r,
                 getWithTimeout timeout sel s = Some (s1, r) ->
                 done (fut s1) = true /\ invoked s1 = (invoked s ++ [cb])%list).
  { intros timeout sel s1 r G.
    destruct (step_not_done (EvGetWithTimeout timeout sel) s s1 (RetResult r) Hd)
      as [(F & _)|(D & _ & _ & _ & I)].
    - simpl. now rewrite G.
    - pose proof (step_observes (EvGetWithTimeout timeout sel) s s1
                    (RetResult r) Hd) as O.
      simpl in O. rewrite G in O. specialize (O eq_refl). congruence.
    - rewrite Hcb in I. auto. }
  repeat split.
  - now apply (Hget sel s1 r).
  - now apply (Hget sel s1 r).
  - now apply (Hgwt timeout sel s1 r).
  - now apply (Hgwt timeout sel s1 r).
  - revert H. unfold cancel. rewrite Hcb.
    destruct (complete (fut s) || isCancelled (fut s) || isRunning (fut s));
      simpl; [discriminate|]. intros _. reflexivity.
  - revert H. unfold cancel. rewrite Hcb.
    destruct (complete (fut s) || isCancelled (fut s) || isRunning (fut s));
      simpl; [discriminate|]. intros _. reflexivity.
  - intros timeout. unfold getWithTimeout. rewrite Hd. simpl.
    rewrite Hcb. simpl. eexists. reflexivity.
  - intros r g C. unfold get, getWithContext. rewrite Hd. simpl. rewrite C.
    simpl. rewrite Hcb. destruct (Result.error r); simpl; eexists; reflexivity.
  - intros Hr. unfold cancel, complete, isRunning, isCancelled.
    rewrite Hd, Hr. reflexivity.
Qed.

(** C3.  Let a callback [cb] be registered with [addDoneCallback] on a future
    that is not done, and let any sequence of goroutine steps, [get],
    [getWithTimeout], [cancel] and inspection calls follow (no second
    registration).  At every point of the execution the callback has run
    once if the future is done and not at all if it is not: it runs exactly
    in the call that makes the future done, and never again.  If the
    sequence holds no retrieval and no cancel, the future is still not done
    and the callback has not run.  It has run, exactly once, as soon as the
    sequence holds a retrieval that returned or a [cancel] that returned
    [true], and only then.  And while it has not run, the next call runs it:
    a [get] or [getWithTimeout] that returns, or a [cancel] that returns
    [true], leaves the log with exactly one more entry, [cb]; a
    [getWithTimeout] does return through its deadline, a [get] does return
    when a result is ready on the channel, and a [cancel] does return [true]
    when the goroutine is not running. *)
Theorem callback_runs_once_at_termination :
  forall (V : Type) (s0 : Sys V) (cb : callback) (evs : list Event)
         (s' : Sys V) (rs : list (Ret V)),
    done (fut s0) = false ->
    forallb (fun e => negb (is_register e)) evs = true ->
    run (addDoneCallback cb s0) evs = Some (s', rs) ->
    invoked s' = (invoked s0 ++ if done (fut s') then [cb] else [])%list /\
    (forallb (fun e => negb (is_retrieval_or_cancel e)) evs = true ->
     done (fut s') = false /\ invoked s' = invoked s0) /\
    (observed_termination evs rs = true ->
     done (fut s') = true /\ invoked s' = (invoked s0 ++ [cb])%list) /\
    (observed_termination evs rs = false ->
     done (fut s') = false /\ invoked s' = invoked s0 /\
     (forall (sel : Ready) (s1 : Sys V) (r : Result V),
         get sel s' = Some (s1, r) ->
         done (fut s1) = true /\ invoked s1 = (invoked s0 ++ [cb])%list) /\
     (forall (timeout : Z) (sel : Ready) (s1 : Sys V) (r : Result V),
         getWithTimeout timeout sel s' = Some (s1, r) ->
         done (fut s1) = true /\ invoked s1 = (invoked s0 ++ [cb])%list) /\
     (snd (cancel s') = true ->
      done (fut (fst (cancel s'))) = true /\
      invoked (fst (cancel s')) = (invoked s0 ++ [cb])%list) /\
     (forall timeout : Z,
         exists s1 : Sys V,
           getWithTimeout timeout CtxDone s' = Some (s1, timeout_result)) /\
     (forall (r : Result V) (g : Goroutine V),
         chan_recv (bg s') = Some (r, g) ->
         exists s1 : Sys V, get ChanRecv s' = Some (s1, r)) /\
     (running (fut s') = false -> snd (cancel s') = true)).
Proof.
  intros V s0 cb evs s' rs Hd Hall R.
  assert (L : invoked s' =
              (invoked s0 ++ if done (fut s') then [cb] else [])%list).
  { apply (run_callback_log cb (invoked s0) evs (addDoneCallback cb s0) s' rs);
      auto.
    simpl. rewrite Hd. now rewrite app_nil_r. }
  pose proof (run_observes evs (addDoneCallback cb s0) s' rs Hd R) as O.
  split; [exact L|]. split; [|split].
  - intros Hnc. destruct (run_no_call evs _ _ _ Hnc R) as (D & I).
    simpl in D, I. split; congruence.
  - intros Ho. rewrite Ho in O. rewrite O in L. auto.
  - intros Ho. rewrite Ho in O. rewrite O, app_nil_r in L.
    split; [exact O|]. split; [exact L|].
    pose proof (run_callbackMethod evs (addDoneCallback cb s0) s' rs Hall R)
      as K. simpl in K.
    rewrite <- L. now apply calls_run_registered_callback.
Qed.

Lemma callback_runs_once_at_termination_witness :
  invoked (after (addDoneCallback 7 (ReturnAFuture main_task_50))
             [EvBgStart; EvCancel; EvBgReturn; EvGet ChanRecv;
              EvGetWithTimeout 5 CtxDone; EvCancel; EvGet ChanRecv]) = [7].
Proof.
  apply (proj1 (callback_runs_once_at_termination string
                  (ReturnAFuture main_task_50) 7
                  [EvBgStart; EvCancel; EvBgReturn; EvGet ChanRecv;
                   EvGetWithTimeout 5 CtxDone; EvCancel; EvGet ChanRecv]
                  _ _ eq_refl eq_refl eq_refl)).
Defined.

(** ** Inspection and rendering *)

(** C6, as the code has it.  [isCancelled] is [true] exactly when the future
    is done and its error is present with the message "Cancelled Manually":
    the test reads the message, not the kind of the error.  In particular it
    is [false] for a done future with no error and for one whose error has
    another message, such as the "Request Timeout!" of a timeout. *)
Theorem isCancelled_iff_done_with_cancel_message :
  forall (V : Type) (f : FutureTask V),
    (isCancelled f = true <->
     done f = true /\
     exists e : GoError, error f = Some e /\ Error e = "Cancelled Manually") /\
    (error f = None -> isCancelled f = false) /\
    (forall e : GoError,
        error f = Some e -> Error e <> "Cancelled Manually" ->
        isCancelled f = false).
Proof.
  intros V f. unfold isCancelled. repeat split.
  - destruct (done f); [reflexivity | discriminate].
  - destruct (done f); [|discriminate].
    destruct (error f) as [e|]; [|discriminate].
    destruct (Error e =? "Cancelled Manually") eqn:E; [|discriminate].
    exists e. split; [reflexivity | now apply String.eqb_eq].
  - intros (Hd & e & He & Hm). rewrite Hd, He.
    apply String.eqb_eq in Hm. now rewrite Hm.
  - intros He. rewrite He. now destruct (done f).
  - intros e He Hm. rewrite He. apply String.eqb_neq in Hm. rewrite Hm.
    now destruct (done f).
Qed.

Lemma isCancelled_iff_done_with_cancel_message_witness :
  isCancelled
    (fut (after (ReturnAFuture main_task_53)
            [EvBgStart; EvGetWithTimeout 1000000000 CtxDone])) = false.
Proof.
  apply (proj2 (proj2 (isCancelled_iff_done_with_cancel_message string
                         (fut (after (ReturnAFuture main_task_53)
                                 [EvBgStart; EvGetWithTimeout 1000000000 CtxDone]))))
           (TimeoutError "Request Timeout!")).
  - reflexivity.
  - discriminate.
Defined.

(** C6, as stated, fails: a task that fails with an error of its own whose
    message is "Cancelled Manually" leaves, once retrieved, a done future
    whose error is a [TaskError], not the error [cancel] records, and for
    which [isCancelled] is [true]. *)
Lemma isCancelled_true_for_task_error :
  reachable (after (ReturnAFuture task_failing_as_cancelled)
               [EvBgStart; EvBgReturn; EvGet ChanRecv]) /\
  error (fut (after (ReturnAFuture task_failing_as_cancelled)
                [EvBgStart; EvBgReturn; EvGet ChanRecv])) =
    Some (TaskError "Cancelled Manually") /\
  ~ (isCancelled (fut (after (ReturnAFuture task_failing_as_cancelled)
                         [EvBgStart; EvBgReturn; EvGet ChanRecv])) = true <->
     done (fut (after (ReturnAFuture task_failing_as_cancelled)
                  [EvBgStart; EvBgReturn; EvGet ChanRecv])) = true /\
     error (fut (after (ReturnAFuture task_failing_as_cancelled)
                   [EvBgStart; EvBgReturn; EvGet ChanRecv])) =
       Some (InterruptError "Cancelled Manually")).
Proof.
  split; [|split].
  - exists task_failing_as_cancelled, [EvBgStart; EvBgReturn; EvGet ChanRecv].
    eexists. reflexivity.
  - reflexivity.
  - intros [H _]. destruct (H eq_refl) as [_ F]. discriminate F.
Qed.

(** C9, as the code has it.  A result renders as its value ([<nil>] when
    absent) followed by " with (no error)" when the error is nil and by
    " with (<message> error)" when it is present.  For one and the same
    value, a failure reads differently from the success unless its message
    is "no", and two failures read differently when their messages
    differ. *)
Theorem String_renders_value_and_error :
  forall (V : Type) (fmtV : V -> string) (r : Result V),
    (Result.error r = None ->
     Result.String fmtV r =
       Result.verb_v fmtV (Result.value r) ++ " with (no error)") /\
    (forall e : GoError,
        Result.error r = Some e ->
        Result.String fmtV r =
          Result.verb_v fmtV (Result.value r) ++ " with (" ++ Error e ++ " error)") /\
    (forall e : GoError,
        Result.error r = Some e -> Error e <> "no" ->
        Result.String fmtV r <>
          Result.String fmtV (Result.mk (Result.value r) None)) /\
    (forall e e' : GoError,
        Result.error r = Some e -> Error e <> Error e' ->
        Result.String fmtV r <>
          Result.String fmtV (Result.mk (Result.value r) (Some e'))).
Proof.
  intros V fmtV r. repeat split.
  - intros E. unfold Result.String. now rewrite E.
  - intros e E. unfold Result.String. now rewrite E.
  - intros e E Hm H. apply String_same_value_inj in H; [|reflexivity].
    unfold shown_error in H. simpl in H. rewrite E in H. contradiction.
  - intros e e' E Hm H. apply String_same_value_inj in H; [|reflexivity].
    unfold shown_error in H. simpl in H. rewrite E in H. contradiction.
Qed.

Lemma String_renders_value_and_error_witness :
  Result.String render_text timeout_result =
    "<nil> with (Request Timeout! error)" /\
  Result.String render_text timeout_result <>
    Result.String render_text (Result.mk None None) /\
  Result.String render_text timeout_result <>
    Result.String render_text cancelled_result.
Proof.
  destruct (String_renders_value_and_error string render_text timeout_result)
    as (_ & F & S & D).
  split; [|split].
  - apply (F (TimeoutError "Request Timeout!")). reflexivity.
  - apply (S (TimeoutError "Request Timeout!")); [reflexivity | discriminate].
  - apply (D (TimeoutError "Request Timeout!")
             (InterruptError "Cancelled Manually"));
      [reflexivity | discriminate].
Defined.

(** C9, as stated, fails: a failure whose message is "no" renders exactly as
    the success with the same value. *)
Lemma String_failure_reads_as_success :
  Result.error result_failing_as_no = Some (TaskError "no") /\
  Result.error (Result.mk (V:=string) None None) = None /\
  Result.String render_text result_failing_as_no = "<nil> with (no error)" /\
  Result.String render_text (Result.mk None None) = "<nil> with (no error)".
Proof. repeat split. Qed.

(** ** Invariants of executions *)

(** Before anything is retrieved, the goroutine is at or before its send. *)
Lemma reachable_bg_before_delivery {V : Type} (s : Sys V) :
  reachable s -> done (fut s) = false -> bg_before_delivery s.
Proof.
  intros R. revert s R.
  apply (reachable_ind (fun s => done (fut s) = false -> bg_before_delivery s)).
  - intros tk _. left. reflexivity.
  - intros e s s' r Inv H. now apply (step_bg_before_delivery e s s' r).
Qed.

(** C8, as the code has it.  On a future that is not done, [get] cannot
    return through the deadline case: its context is [Background].  When it
    returns, the receive case fired, the goroutine was waiting in its send,
    and the result returned is the task's own; so it carries a
    [TimeoutError] only if the task produced one. *)
Theorem get_never_takes_deadline_branch :
  forall (V : Type) (s : Sys V),
    reachable s ->
    done (fut s) = false ->
    get CtxDone s = None /\
    getWithContext Background CtxDone s = None /\
    forall (sel : Ready) (s' : Sys V) (r : Result V),
      get sel s = Some (s', r) ->
      sel = ChanRecv /\ bg s = Sending r /\ r = task s tt.
Proof.
  intros V s R Hd. split; [|split].
  - unfold get. now rewrite Hd.
  - reflexivity.
  - intros sel s' r G. unfold get in G. rewrite Hd in G.
    destruct sel; [discriminate G|]. split; [reflexivity|].
    unfold getWithContext in G. simpl in G.
    destruct (reachable_bg_before_delivery s R Hd) as [E|[E|E]];
      rewrite E in G; simpl in G; try discriminate G.
    destruct (Result.error (task s tt)); simpl in G; invert_some; auto.
Qed.

Lemma get_never_takes_deadline_branch_witness :
  get CtxDone (after (ReturnAFuture main_task_40) [EvBgStart; EvBgReturn]) = None.
Proof.
  apply (get_never_takes_deadline_branch string
           (after (ReturnAFuture main_task_40) [EvBgStart; EvBgReturn])).
  - exists main_task_40, [EvBgStart; EvBgReturn]. eexists. reflexivity.
  - reflexivity.
Defined.

(** C8, as stated, fails: after a [getWithTimeout] that timed out, a plain
    [get] returns the cached result, which carries a [TimeoutError]. *)
Lemma get_returns_cached_timeout :
  reachable (after (ReturnAFuture main_task_53)
               [EvBgStart; EvGetWithTimeout 1000000000 CtxDone]) /\
  ~ (forall (sel : Ready) (s' : Sys string) (r : Result string),
        get sel (after (ReturnAFuture main_task_53)
                   [EvBgStart; EvGetWithTimeout 1000000000 CtxDone]) =
          Some (s', r) ->
        forall m : string, Result.error r <> Some (TimeoutError m)).
Proof.
  split.
  - exists main_task_53, [EvBgStart; EvGetWithTimeout 1000000000 CtxDone].
    eexists. reflexivity.
  - intros H.
    apply (H ChanRecv _ timeout_result eq_refl "Request Timeout!").
    reflexivity.
Qed.

(** C10.  In every state reachable from [ReturnAFuture] by goroutine steps
    and calls of any kind, a done future is coherent: its error is the error
    of its cached result, and [success] is [true] exactly when that error is
    nil. *)
Theorem done_future_is_coherent :
  forall (V : Type) (s : Sys V),
    reachable s ->
    done (fut s) = true ->
    error (fut s) = Result.error (result (fut s)) /\
    (success (fut s) = true <-> error (fut s) = None).
Proof.
  intros V s R. revert s R.
  apply (reachable_ind (fun s => done (fut s) = true -> coherent (fut s))).
  - intros tk F. discriminate F.
  - intros e s s' r Inv H. now apply (step_coherent e s s' r).
Qed.

Lemma done_future_is_coherent_witness :
  error (fut (after (ReturnAFuture task_failing_as_cancelled)
                [EvAddDoneCallback 1; EvBgStart; EvCancel; EvBgReturn;
                 EvGetWithTimeout 0 ChanRecv; EvBgClose; EvBgExit])) =
    Result.error
      (result (fut (after (ReturnAFuture task_failing_as_cancelled)
                      [EvAddDoneCallback 1; EvBgStart; EvCancel; EvBgReturn;
                       EvGetWithTimeout 0 ChanRecv; EvBgClose; EvBgExit]))) /\
  (success (fut (after (ReturnAFuture task_failing_as_cancelled)
                   [EvAddDoneCallback 1; EvBgStart; EvCancel; EvBgReturn;
                    EvGetWithTimeout 0 ChanRecv; EvBgClose; EvBgExit])) = true <->
   error (fut (after (ReturnAFuture task_failing_as_cancelled)
                 [EvAddDoneCallback 1; EvBgStart; EvCancel; EvBgReturn;
                  EvGetWithTimeout 0 ChanRecv; EvBgClose; EvBgExit])) = None).
Proof.
  apply done_future_is_coherent.
  - exists task_failing_as_cancelled,
      [EvAddDoneCallback 1; EvBgStart; EvCancel; EvBgReturn;
       EvGetWithTimeout 0 ChanRecv; EvBgClose; EvBgExit].
    eexists. reflexivity.
  - reflexivity.
Defined.

(** ** The goroutine and the flags together *)

Ltac split_step H :=
  repeat match type of H with
         | context [match ?x with _ => _ end] =>
             lazymatch x with
             | context [match _ with _ => _ end] => fail
             | _ => destruct x eqn:?; simpl in H
             end
         end;
  invert_some.

Lemma ReturnAFuture_well_formed {V : Type} (task : unit -> Result V) :
  well_formed (ReturnAFuture task).
Proof.
  unfold well_formed, task_timeout_or_cancelled. simpl.
  repeat split; auto; discriminate.
Qed.

Lemma step_well_formed {V : Type} (e : Event) (s s' : Sys V) (r : Ret V) :
  well_formed s -> step e s = Some (s', r) -> well_formed s'.
Proof.
  unfold well_formed, task_timeout_or_cancelled.
  destruct s as [[su er ru dn re cb] g t inv out].
  intros (Hrun & Hsend & Hpast & Hres & Hsucc) H.
  simpl in *.
  destruct dn.
  - (* done: nothing but [running], the goroutine and the slot can move *)
    specialize (Hres eq_refl).
    destruct e; simpl in H;
      unfold bg_start, bg_return, bg_close, bg_exit, get, getWithTimeout,
        cancel, complete, addDoneCallback in H;
      simpl in H; split_step H; simpl in *;
      repeat split; intros; try discriminate; try congruence; auto;
      try (apply Hpast; solve [auto]); try (apply Hsucc; solve [auto]).
  - (* not done: the goroutine has not delivered *)
    clear Hres.
    assert (Hsu : su = false).
    { destruct su; [destruct (Hsucc eq_refl); discriminate | reflexivity]. }
    subst su. clear Hsucc.
    assert (Hg : past_delivery g = false).
    { destruct (past_delivery g); [destruct (Hpast eq_refl); discriminate
                                  | reflexivity]. }
    clear Hpast.
    destruct e; simpl in H;
      unfold bg_start, bg_return, bg_close, bg_exit, get, getWithTimeout,
        getWithContext, cancel, complete, isRunning, isCancelled,
        addDoneCallback, run_deferred in H;
      simpl in H; destruct g; try discriminate Hg; simpl in H;
      split_step H; simpl in *;
      try (match goal with
           | Hs : forall r, Sending ?x = Sending r -> _ |- _ =>
               pose proof (Hs x eq_refl)
           end);
      repeat split; intros; try discriminate; try congruence; auto.
Qed.

Lemma run_well_formed {V : Type} (evs : list Event) :
  forall (s s' : Sys V) (rs : list (Ret V)),
    well_formed s -> run s evs = Some (s', rs) -> well_formed s'.
Proof.
  induction evs as [|e evs IH]; intros s s' rs W R; simpl in R.
  - invert_some. exact W.
  - destruct (step e s) as [[s1 r1]|] eqn:E; [|discriminate].
    destruct (run s1 evs) as [[s2 rs2]|] eqn:R'; [|discriminate].
    invert_some. apply (IH s1 s' rs2); [|exact R'].
    now apply (step_well_formed e s s1 r1).
Qed.

Lemma reachable_well_formed {V : Type} (s : Sys V) :
  reachable s -> well_formed s.
Proof.
  intros (tk & evs & rs & R).
  apply (run_well_formed evs (ReturnAFuture tk) s rs); [|exact R].
  apply ReturnAFuture_well_formed.
Qed.

Lemma reachable_coherent {V : Type} (s : Sys V) :
  reachable s -> done (fut s) = true -> coherent (fut s).
Proof.
  intros R. revert s R.
  apply (reachable_ind (fun s => done (fut s) = true -> coherent (fut s))).
  - intros tk F. discriminate F.
  - intros e s s' r Inv H. now apply (step_coherent e s s' r).
Qed.

Lemma run_task {V : Type} (evs : list Event) :
  forall (s s' : Sys V) (rs : list (Ret V)),
    run s evs = Some (s', rs) -> task s' = task s.
Proof.
  induction evs as [|e evs IH]; intros s s' rs R; simpl in R.
  - invert_some. reflexivity.
  - destruct (step e s) as [[s1 r1]|] eqn:E; [|discriminate].
    destruct (run s1 evs) as [[s2 rs2]|] eqn:R'; [|discriminate].
    invert_some. rewrite (IH s1 s' rs2 R'). now apply (step_task e s s1 r1).
Qed.

(** A state named by its execution is reachable when the execution can
    happen. *)
Lemma reachable_after {V : Type} (task : unit -> Result V) (evs : list Event) :
  match run (ReturnAFuture task) evs with
  | Some _ => true
  | None => false
  end = true ->
  reachable (after (ReturnAFuture task) evs).
Proof.
  unfold after. intros H.
  destruct (run (ReturnAFuture task) evs) as [[s rs]|] eqn:R; [|discriminate].
  exists task, evs, rs. exact R.
Qed.

(** Once the future is done, the goroutine's send can no longer go
    through: only a retrieval on a future that is not done receives. *)
Lemma step_done_no_delivery {V : Type} (e : Event) (s s' : Sys V) (r : Ret V) :
  done (fut s) = true -> past_delivery (bg s) = false ->
  step e s = Some (s', r) -> past_delivery (bg s') = false.
Proof.
  intros Hd Hp H. destruct e; simpl in H.
  - unfold bg_start in H. destruct (bg s); simpl in H; invert_some; auto.
  - unfold bg_return in H. destruct (bg s); simpl in H; invert_some; auto.
  - unfold bg_close in H. destruct (bg s); simpl in H; invert_some; auto.
  - unfold bg_exit in H. destruct (bg s); simpl in H; invert_some; auto.
  - rewrite (get_done s sel Hd) in H. simpl in H. invert_some. auto.
  - rewrite (getWithTimeout_done s timeout sel Hd) in H. simpl in H.
    invert_some. auto.
  - rewrite (cancel_done s Hd) in H. invert_some. auto.
  - invert_some. auto.
  - invert_some. auto.
  - invert_some. auto.
  - invert_some. auto.
Qed.

Lemma run_done_no_delivery {V : Type} (evs : list Event) :
  forall (s s' : Sys V) (rs : list (Ret V)),
    done (fut s) = true -> past_delivery (bg s) = false ->
    run s evs = Some (s', rs) -> past_delivery (bg s') = false.
Proof.
  induction evs as [|e evs IH]; intros s s' rs Hd Hp R; simpl in R.
  - invert_some. exact Hp.
  - destruct (step e s) as [[s1 r1]|] eqn:E; [|discriminate].
    destruct (run s1 evs) as [[s2 rs2]|] eqn:R'; [|discriminate].
    invert_some.
    destruct (step_done_sticky e s s1 r1 Hd E) as (D & _).
    apply (IH s1 s' rs2 D); [|exact R'].
    now apply (step_done_no_delivery e s s1 r1).
Qed.

(** A goroutine that has not delivered cannot be closing or exiting, and is
    live as soon as it has started. *)
Lemma no_delivery_stuck {V : Type} (s : Sys V) :
  well_formed s -> past_delivery (bg s) = false ->
  bg_close s = None /\ bg_exit s = None /\
  (bg s <> NotStarted -> isRunning (fut s) = true).
Proof.
  intros (Hrun & _) Hp. unfold bg_close, bg_exit, isRunning. rewrite Hrun.
  destruct (bg s); simpl in *; try discriminate Hp; repeat split; auto;
    intros F; now elim F.
Qed.

(** A retrieval that returns leaves the future done with the returned
    result cached. *)
Lemma retrieval_post {V : Type} (e : Event) (s s' : Sys V) (r : Result V) :
  step e s = Some (s', RetResult r) ->
  done (fut s') = true /\ result (fut s') = r.
Proof.
  intros H. destruct e; simpl in H.
  - unfold bg_start in H. destruct (bg s); simpl in H; discriminate.
  - unfold bg_return in H. destruct (bg s); simpl in H; discriminate.
  - unfold bg_close in H. destruct (bg s); simpl in H; discriminate.
  - unfold bg_exit in H. destruct (bg s); simpl in H; discriminate.
  - unfold get in H. destruct (done (fut s)) eqn:Hd; simpl in H.
    + invert_some. auto.
    + destruct (getWithContext Background sel s) as [[s1 r1]|] eqn:G;
        simpl in H; invert_some.
      destruct (getWithContext_post _ _ _ _ _ G) as (D & Hr & _).
      destruct (run_deferred_fut (callbackMethod (fut s)) s1) as (Ef & _).
      rewrite Ef. auto.
  - unfold getWithTimeout in H. destruct (done (fut s)) eqn:Hd; simpl in H.
    + invert_some. auto.
    + destruct (getWithContext (WithTimeout timeout) sel s) as [[s1 r1]|] eqn:G;
        simpl in H; invert_some.
      destruct (getWithContext_post _ _ _ _ _ G) as (D & Hr & _).
      destruct (run_deferred_fut (callbackMethod (fut s)) s1) as (Ef & _).
      rewrite Ef. auto.
  - destruct (cancel s). discriminate.
  - discriminate.
  - discriminate.
  - discriminate.
  - discriminate.
Qed.

(** A deadline return terminates the future and leaves the goroutine where
    it was. *)
Lemma getWithTimeout_returns_done {V : Type} (s s1 : Sys V) (timeout : Z)
      (r : Result V) :
  done (fut s) = false ->
  getWithTimeout timeout CtxDone s = Some (s1, r) ->
  done (fut s1) = true /\ bg s1 = bg s.
Proof.
  intros Hd G. unfold getWithTimeout in G. rewrite Hd in G. simpl in G.
  invert_some. destruct (callbackMethod (fut s)); simpl; auto.
Qed.

(** So does a successful [cancel]. *)
Lemma cancel_true_done {V : Type} (s : Sys V) :
  snd (cancel s) = true ->
  done (fut s) = false /\ done (fut (fst (cancel s))) = true /\
  bg (fst (cancel s)) = bg s.
Proof.
  unfold cancel, complete.
  destruct (done (fut s)); simpl; [discriminate|].
  destruct (isCancelled (fut s) || isRunning (fut s)); simpl; [discriminate|].
  intros _. destruct (callbackMethod (fut s)); simpl; auto.
Qed.

(** ** What a user of the handle can rely on *)

(** X1.  In every reachable state [isRunning] tells where the goroutine
    is: it is [true] exactly from the goroutine's [running = true] to its
    [running = false], whatever the caller has done meanwhile. *)
Theorem isRunning_mirrors_goroutine :
  forall (V : Type) (s : Sys V),
    reachable s -> isRunning (fut s) = goroutine_live (bg s).
Proof.
  intros V s R. destruct (reachable_well_formed s R) as (Hrun & _).
  unfold isRunning. rewrite Hrun. now destruct (goroutine_live (bg s)).
Qed.

Lemma isRunning_mirrors_goroutine_witness :
  isRunning (fut (after (ReturnAFuture main_task_40)
                    [EvBgStart; EvBgReturn; EvGet ChanRecv; EvBgClose])) = true.
Proof.
  assert (R : reachable (after (ReturnAFuture main_task_40)
                           [EvBgStart; EvBgReturn; EvGet ChanRecv; EvBgClose]))
    by (apply reachable_after; vm_compute; reflexivity).
  pose proof (isRunning_mirrors_goroutine string _ R) as H.
  vm_compute in H |- *. exact H.
Defined.

(** X2.  The goroutine gets past its send only through a retrieval: in
    every reachable state where the send has gone through, the future is
    done, and its cached result and error are those of the task. *)
Theorem goroutine_finishes_only_if_retrieved :
  forall (V : Type) (s : Sys V),
    reachable s ->
    past_delivery (bg s) = true ->
    done (fut s) = true /\
    result (fut s) = task s tt /\
    error (fut s) = Result.error (task s tt).
Proof.
  intros V s R Hp.
  destruct (reachable_well_formed s R) as (_ & _ & Hpast & _).
  destruct (Hpast Hp) as (Hd & Hr).
  destruct (reachable_coherent s R Hd) as (He & _).
  repeat split; auto. now rewrite He, Hr.
Qed.

Lemma goroutine_finishes_only_if_retrieved_witness :
  result (fut (after (ReturnAFuture main_task_40)
                 [EvBgStart; EvBgReturn; EvGet ChanRecv; EvBgClose])) =
  main_task_40 tt.
Proof.
  assert (R : reachable (after (ReturnAFuture main_task_40)
                           [EvBgStart; EvBgReturn; EvGet ChanRecv; EvBgClose]))
    by (apply reachable_after; vm_compute; reflexivity).
  assert (P : past_delivery
                (bg (after (ReturnAFuture main_task_40)
                       [EvBgStart; EvBgReturn; EvGet ChanRecv; EvBgClose])) = true)
    by (vm_compute; reflexivity).
  destruct (goroutine_finishes_only_if_retrieved string _ R P) as (_ & H & _).
  vm_compute in H |- *. exact H.
Defined.

(** X3.  In a reachable state [cancel] succeeds exactly when nothing has
    been retrieved and the goroutine has not yet executed its
    [running = true]: a task that has started can no longer be cancelled. *)
Theorem cancel_succeeds_iff_not_started :
  forall (V : Type) (s : Sys V),
    reachable s ->
    (snd (cancel s) = true <-> done (fut s) = false /\ bg s = NotStarted).
Proof.
  intros V s R.
  destruct (reachable_well_formed s R) as (Hrun & _ & Hpast & _).
  unfold cancel, complete, isRunning, isCancelled. rewrite Hrun.
  destruct (done (fut s)) eqn:Hd; simpl.
  - split; [discriminate | intros (F & _); discriminate].
  - destruct (bg s); simpl in *;
      try (destruct (Hpast eq_refl) as (F & _); discriminate F);
      split; auto; try discriminate; try (intros (_ & F); discriminate).
Qed.

Lemma cancel_succeeds_iff_not_started_witness :
  snd (cancel (after (ReturnAFuture main_task_50) [EvIsRunning])) = true.
Proof.
  assert (R : reachable (after (ReturnAFuture main_task_50) [EvIsRunning]))
    by (apply reachable_after; vm_compute; reflexivity).
  apply (proj2 (cancel_succeeds_iff_not_started string _ R)).
  split; vm_compute; reflexivity.
Defined.

(** X6.  [success] is [true] only on a future that is done with the task's
    own result, and that result has no error: then the recorded error is
    nil and [isCancelled] is [false]. *)
Theorem success_means_task_succeeded :
  forall (V : Type) (s : Sys V),
    reachable s ->
    success (fut s) = true ->
    done (fut s) = true /\
    result (fut s) = task s tt /\
    Result.error (task s tt) = None /\
    error (fut s) = None /\
    isCancelled (fut s) = false.
Proof.
  intros V s R Hs.
  destruct (reachable_well_formed s R) as (_ & _ & _ & _ & Hsucc).
  destruct (Hsucc Hs) as (Hd & Hr).
  destruct (reachable_coherent s R Hd) as (He & Hiff).
  assert (En : error (fut s) = None) by now apply Hiff.
  repeat split; auto.
  - now rewrite <- Hr, <- He.
  - unfold isCancelled. rewrite Hd, En. reflexivity.
Qed.

Lemma success_means_task_succeeded_witness :
  result (fut (after (ReturnAFuture main_task_40)
                 [EvBgStart; EvBgReturn; EvGetWithTimeout 5 ChanRecv])) =
  main_task_40 tt.
Proof.
  assert (R : reachable (after (ReturnAFuture main_task_40)
                           [EvBgStart; EvBgReturn; EvGetWithTimeout 5 ChanRecv]))
    by (apply reachable_after; vm_compute; reflexivity).
  assert (S : success
                (fut (after (ReturnAFuture main_task_40)
                        [EvBgStart; EvBgReturn; EvGetWithTimeout 5 ChanRecv])) = true)
    by (vm_compute; reflexivity).
  destruct (success_means_task_succeeded string _ R S) as (_ & H & _).
  vm_compute in H |- *. exact H.
Defined.

(** X4.  A successful [cancel] is final: after it, whatever happens next,
    [isCancelled] and [complete] are [true], every [get] and
    [getWithTimeout] returns the fabricated cancelled result at once, and
    every further [cancel] returns [false] and changes nothing. *)
Theorem cancel_is_final :
  forall (V : Type) (s : Sys V) (evs : list Event) (s2 : Sys V)
         (rs : list (Ret V)),
    snd (cancel s) = true ->
    run (fst (cancel s)) evs = Some (s2, rs) ->
    isCancelled (fut s2) = true /\
    complete (fut s2) = true /\
    success (fut s2) = false /\
    cancel s2 = (s2, false) /\
    forall (sel : Ready) (timeout : Z),
      get sel s2 = Some (s2, cancelled_result) /\
      getWithTimeout timeout sel s2 = Some (s2, cancelled_result).
Proof.
  intros V s evs s2 rs Hc R.
  assert (P : done (fut (fst (cancel s))) = true /\
              success (fut (fst (cancel s))) = false /\
              error (fut (fst (cancel s))) =
                Some (InterruptError "Cancelled Manually") /\
              result (fut (fst (cancel s))) = cancelled_result).
  { revert Hc. unfold cancel.
    destruct (complete (fut s) || isCancelled (fut s) || isRunning (fut s));
      simpl; [discriminate|].
    intros _. destruct (callbackMethod (fut s)); simpl; auto. }
  destruct P as (D & S & E & Re).
  destruct (run_done_sticky evs _ s2 rs D R) as (D2 & S2 & E2 & R2 & _).
  unfold isCancelled, complete. rewrite D2, E2, E, S2, S. simpl.
  repeat split; auto.
  - now apply cancel_done.
  - rewrite (get_done s2 sel D2). now rewrite R2, Re.
  - rewrite (getWithTimeout_done s2 timeout sel D2). now rewrite R2, Re.
Qed.

Lemma cancel_is_final_witness :
  cancel (after (fst (cancel (ReturnAFuture main_task_50)))
            [EvBgStart; EvBgReturn]) =
  (after (fst (cancel (ReturnAFuture main_task_50))) [EvBgStart; EvBgReturn],
   false).
Proof.
  assert (C : snd (cancel (ReturnAFuture main_task_50)) = true)
    by (vm_compute; reflexivity).
  assert (R : run (fst (cancel (ReturnAFuture main_task_50)))
                [EvBgStart; EvBgReturn] =
              Some (after (fst (cancel (ReturnAFuture main_task_50)))
                      [EvBgStart; EvBgReturn], [RetNone; RetNone]))
    by (vm_compute; reflexivity).
  destruct (cancel_is_final string _ _ _ _ C R) as (_ & _ & _ & H & _).
  exact H.
Defined.

(** X5.  The first result a retrieval returns is the only one the future
    ever gives: once [get] or [getWithTimeout] has returned [r], then after
    any further events both return [r] again, at once and without changing
    the state. *)
Theorem retrieved_result_is_final :
  forall (V : Type) (e : Event) (s s1 : Sys V) (r : Result V)
         (evs : list Event) (s2 : Sys V) (rs : list (Ret V)),
    step e s = Some (s1, RetResult r) ->
    run s1 evs = Some (s2, rs) ->
    forall (sel : Ready) (timeout : Z),
      get sel s2 = Some (s2, r) /\
      getWithTimeout timeout sel s2 = Some (s2, r).
Proof.
  intros V e s s1 r evs s2 rs H R sel timeout.
  destruct (retrieval_post e s s1 r H) as (D & Hr).
  destruct (run_done_sticky evs s1 s2 rs D R) as (D2 & _ & _ & R2 & _).
  rewrite (get_done s2 sel D2), (getWithTimeout_done s2 timeout sel D2).
  now rewrite R2, Hr.
Qed.

Lemma retrieved_result_is_final_witness :
  getWithTimeout 1 CtxDone
    (after (ReturnAFuture main_task_40)
       [EvBgStart; EvBgReturn; EvGet ChanRecv; EvBgClose]) =
  Some (after (ReturnAFuture main_task_40)
          [EvBgStart; EvBgReturn; EvGet ChanRecv; EvBgClose],
        main_task_40 tt).
Proof.
  assert (H : step (EvGet ChanRecv)
                (after (ReturnAFuture main_task_40) [EvBgStart; EvBgReturn]) =
              Some (after (ReturnAFuture main_task_40)
                      [EvBgStart; EvBgReturn; EvGet ChanRecv],
                    RetResult (main_task_40 tt)))
    by (vm_compute; reflexivity).
  assert (R : run (after (ReturnAFuture main_task_40)
                     [EvBgStart; EvBgReturn; EvGet ChanRecv]) [EvBgClose] =
              Some (after (ReturnAFuture main_task_40)
                      [EvBgStart; EvBgReturn; EvGet ChanRecv; EvBgClose],
                    [RetNone]))
    by (vm_compute; reflexivity).
  exact (proj2 (retrieved_result_is_final string _ _ _ _ _ _ _ H R CtxDone 1%Z)).
Defined.

(** X7.  Whatever a retrieval returns in a reachable state is the task's
    own result, the fabricated timeout result or the fabricated cancelled
    result; in particular the zero value of a closed channel is never
    handed to the caller in place of the task's result. *)
Theorem retrieval_returns_task_timeout_or_cancelled :
  forall (V : Type) (e : Event) (s s' : Sys V) (r : Result V),
    reachable s ->
    step e s = Some (s', RetResult r) ->
    r = task s tt \/ r = timeout_result \/ r = cancelled_result.
Proof.
  intros V e s s' r R H.
  destruct (retrieval_post e s s' r H) as (D & Hr).
  pose proof (step_well_formed e s s' _ (reachable_well_formed s R) H)
    as (_ & _ & _ & Hres & _).
  specialize (Hres D). unfold task_timeout_or_cancelled in Hres.
  now rewrite Hr, (step_task e s s' _ H) in Hres.
Qed.

Lemma retrieval_returns_task_timeout_or_cancelled_witness :
  main_task_53 tt =
    task (after (ReturnAFuture main_task_53) [EvBgStart; EvBgReturn]) tt \/
  main_task_53 tt = timeout_result \/ main_task_53 tt = cancelled_result.
Proof.
  assert (R : reachable (after (ReturnAFuture main_task_53)
                           [EvBgStart; EvBgReturn]))
    by (apply reachable_after; vm_compute; reflexivity).
  assert (H : step (EvGetWithTimeout 7 ChanRecv)
                (after (ReturnAFuture main_task_53) [EvBgStart; EvBgReturn]) =
              Some (after (ReturnAFuture main_task_53)
                      [EvBgStart; EvBgReturn; EvGetWithTimeout 7 ChanRecv],
                    RetResult (main_task_53 tt)))
    by (vm_compute; reflexivity).
  exact (retrieval_returns_task_timeout_or_cancelled string _ _ _ _ R H).
Defined.

(** X13.  On a reachable future that is not done, [getWithTimeout] returns
    in one of two ways only: through the deadline, with the fabricated
    timeout result, or through the receive, with the task's own result
    taken from the goroutine waiting in its send. *)
Theorem getWithTimeout_returns_timeout_or_task_result :
  forall (V : Type) (s s' : Sys V) (timeout : Z) (sel : Ready) (r : Result V),
    reachable s ->
    done (fut s) = false ->
    getWithTimeout timeout sel s = Some (s', r) ->
    (sel = CtxDone /\ r = timeout_result /\ bg s' = bg s) \/
    (sel = ChanRecv /\ r = task s tt /\ bg s = Sending r /\ bg s' = Delivered).
Proof.
  intros V s s' timeout sel r R Hd G.
  destruct (reachable_well_formed s R) as (_ & Hsend & Hpast & _).
  unfold getWithTimeout in G. rewrite Hd in G.
  unfold getWithContext in G. destruct sel; simpl in G.
  - left. invert_some.
    destruct (callbackMethod (fut s)); simpl; auto.
  - right. destruct (bg s) eqn:Eg; simpl in G; try discriminate G.
    + pose proof (Hsend r0 eq_refl) as Er.
      destruct (Result.error r0); simpl in G; invert_some;
        destruct (callbackMethod (fut s)); simpl; auto.
    + destruct (Hpast eq_refl) as (F & _). congruence.
    + destruct (Hpast eq_refl) as (F & _). congruence.
Qed.

Lemma getWithTimeout_returns_timeout_or_task_result_witness :
  (CtxDone = CtxDone /\
   @timeout_result string = timeout_result /\
   bg (after (ReturnAFuture main_task_53)
         [EvBgStart; EvGetWithTimeout 1000000000 CtxDone]) =
   bg (after (ReturnAFuture main_task_53) [EvBgStart])) \/
  (CtxDone = ChanRecv /\
   timeout_result =
     task (after (ReturnAFuture main_task_53) [EvBgStart]) tt /\
   bg (after (ReturnAFuture main_task_53) [EvBgStart]) =
     Sending timeout_result /\
   bg (after (ReturnAFuture main_task_53)
         [EvBgStart; EvGetWithTimeout 1000000000 CtxDone]) = Delivered).
Proof.
  assert (R : reachable (after (ReturnAFuture main_task_53) [EvBgStart]))
    by (apply reachable_after; vm_compute; reflexivity).
  assert (D : done (fut (after (ReturnAFuture main_task_53) [EvBgStart])) = false)
    by (vm_compute; reflexivity).
  assert (G : getWithTimeout 1000000000 CtxDone
                (after (ReturnAFuture main_task_53) [EvBgStart]) =
              Some (after (ReturnAFuture main_task_53)
                      [EvBgStart; EvGetWithTimeout 1000000000 CtxDone],
                    timeout_result))
    by (vm_compute; reflexivity).
  exact (getWithTimeout_returns_timeout_or_task_result string _ _ _ _ _ R D G).
Defined.

(** X8.  A timeout abandons the goroutine for good.  After a
    [getWithTimeout] that returned through its deadline, whatever happens
    next, the goroutine's send never goes through: it never reaches its
    [close] nor its [running = false], and from the moment it has started
    [isRunning] stays [true]. *)
Theorem timed_out_goroutine_never_finishes :
  forall (V : Type) (s s1 : Sys V) (timeout : Z) (r : Result V)
         (evs : list Event) (s2 : Sys V) (rs : list (Ret V)),
    reachable s ->
    done (fut s) = false ->
    getWithTimeout timeout CtxDone s = Some (s1, r) ->
    run s1 evs = Some (s2, rs) ->
    past_delivery (bg s2) = false /\
    bg_close s2 = None /\
    bg_exit s2 = None /\
    (bg s2 <> NotStarted -> isRunning (fut s2) = true).
Proof.
  intros V s s1 timeout r evs s2 rs R Hd G Hrun.
  pose proof (reachable_well_formed s R) as W.
  assert (W1 : well_formed s1).
  { apply (step_well_formed (EvGetWithTimeout timeout CtxDone) s s1 (RetResult r) W).
    simpl. now rewrite G. }
  assert (P : past_delivery (bg s) = false).
  { destruct W as (_ & _ & Hpast & _).
    destruct (past_delivery (bg s)); [|reflexivity].
    destruct (Hpast eq_refl) as (F & _). congruence. }
  destruct (getWithTimeout_returns_done s s1 timeout r Hd G) as (D1 & B1).
  rewrite <- B1 in P.
  pose proof (run_done_no_delivery evs s1 s2 rs D1 P Hrun) as P2.
  split; [exact P2|].
  apply no_delivery_stuck; [|exact P2].
  now apply (run_well_formed evs s1 s2 rs).
Qed.

Lemma timed_out_goroutine_never_finishes_witness :
  isRunning (fut (after (ReturnAFuture main_task_53)
                    [EvBgStart; EvGetWithTimeout 1000000000 CtxDone;
                     EvBgReturn])) = true.
Proof.
  assert (R : reachable (after (ReturnAFuture main_task_53) [EvBgStart]))
    by (apply reachable_after; vm_compute; reflexivity).
  assert (D : done (fut (after (ReturnAFuture main_task_53) [EvBgStart])) = false)
    by (vm_compute; reflexivity).
  assert (G : getWithTimeout 1000000000 CtxDone
                (after (ReturnAFuture main_task_53) [EvBgStart]) =
              Some (after (ReturnAFuture main_task_53)
                      [EvBgStart; EvGetWithTimeout 1000000000 CtxDone],
                    timeout_result))
    by (vm_compute; reflexivity).
  assert (L : run (after (ReturnAFuture main_task_53)
                     [EvBgStart; EvGetWithTimeout 1000000000 CtxDone])
                [EvBgReturn] =
              Some (after (ReturnAFuture main_task_53)
                      [EvBgStart; EvGetWithTimeout 1000000000 CtxDone;
                       EvBgReturn], [RetNone]))
    by (vm_compute; reflexivity).
  destruct (timed_out_goroutine_never_finishes string _ _ _ _ _ _ _ R D G L)
    as (_ & _ & _ & H).
  apply H. vm_compute. discriminate.
Defined.

(** X9.  A successful [cancel] does not stop the goroutine, and abandons
    it as well: afterwards the goroutine may still start and run the task,
    but its send never goes through, and from the moment it has started the
    future reports both [isRunning] and [isCancelled]. *)
Theorem cancelled_goroutine_never_finishes :
  forall (V : Type) (s : Sys V) (evs : list Event) (s2 : Sys V)
         (rs : list (Ret V)),
    reachable s ->
    snd (cancel s) = true ->
    run (fst (cancel s)) evs = Some (s2, rs) ->
    past_delivery (bg s2) = false /\
    bg_close s2 = None /\
    bg_exit s2 = None /\
    (bg s2 <> NotStarted ->
     isRunning (fut s2) = true /\ isCancelled (fut s2) = true).
Proof.
  intros V s evs s2 rs R Hc Hrun.
  pose proof (reachable_well_formed s R) as W.
  destruct (cancel_true_done s Hc) as (Hd & D1 & B1).
  assert (W1 : well_formed (fst (cancel s))).
  { apply (step_well_formed EvCancel s _ (RetBool (snd (cancel s))) W).
    simpl. now destruct (cancel s). }
  assert (P : past_delivery (bg (fst (cancel s))) = false).
  { rewrite B1. destruct W as (_ & _ & Hpast & _).
    destruct (past_delivery (bg s)); [|reflexivity].
    destruct (Hpast eq_refl) as (F & _). congruence. }
  pose proof (run_done_no_delivery evs _ s2 rs D1 P Hrun) as P2.
  destruct (no_delivery_stuck s2 (run_well_formed evs _ s2 rs W1 Hrun) P2)
    as (Hcl & Hex & Hlive).
  repeat split; auto.
  destruct (run_done_sticky evs _ s2 rs D1 Hrun) as (D2 & _ & E2 & _).
  unfold isCancelled. rewrite D2, E2.
  revert Hc. unfold cancel.
  destruct (complete (fut s) || isCancelled (fut s) || isRunning (fut s));
    simpl; [discriminate|].
  intros _. now destruct (callbackMethod (fut s)).
Qed.

Lemma cancelled_goroutine_never_finishes_witness :
  isRunning (fut (after (fst (cancel (ReturnAFuture main_task_50)))
                    [EvBgStart])) = true /\
  isCancelled (fut (after (fst (cancel (ReturnAFuture main_task_50)))
                      [EvBgStart])) = true.
Proof.
  assert (R : reachable (after (ReturnAFuture main_task_50) []))
    by (apply reachable_after; vm_compute; reflexivity).
  assert (C : snd (cancel (after (ReturnAFuture main_task_50) [])) = true)
    by (vm_compute; reflexivity).
  assert (L : run (fst (cancel (after (ReturnAFuture main_task_50) [])))
                [EvBgStart] =
              Some (after (fst (cancel (ReturnAFuture main_task_50)))
                      [EvBgStart], [RetNone]))
    by (vm_compute; reflexivity).
  destruct (cancelled_goroutine_never_finishes string _ _ _ _ R C L)
    as (_ & _ & _ & H).
  apply H. vm_compute. discriminate.
Defined.

(** X10.  A callback registered on a future that is already done is never
    invoked, whatever calls and registrations follow. *)
Theorem late_callback_never_runs :
  forall (V : Type) (s : Sys V) (cb : callback) (evs : list Event)
         (s' : Sys V) (rs : list (Ret V)),
    done (fut s) = true ->
    run (addDoneCallback cb s) evs = Some (s', rs) ->
    invoked s' = invoked s.
Proof.
  intros V s cb evs s' rs Hd R.
  destruct (run_done_sticky evs (addDoneCallback cb s) s' rs Hd R)
    as (_ & _ & _ & _ & I).
  exact I.
Qed.

Lemma late_callback_never_runs_witness :
  invoked (after (addDoneCallback 9
                    (after (ReturnAFuture main_task_40)
                       [EvBgStart; EvBgReturn; EvGet ChanRecv]))
             [EvGet ChanRecv; EvCancel; EvGetWithTimeout 3 CtxDone]) = [].
Proof.
  assert (D : done (fut (after (ReturnAFuture main_task_40)
                           [EvBgStart; EvBgReturn; EvGet ChanRecv])) = true)
    by (vm_compute; reflexivity).
  assert (R : run (addDoneCallback 9
                     (after (ReturnAFuture main_task_40)
                        [EvBgStart; EvBgReturn; EvGet ChanRecv]))
                [EvGet ChanRecv; EvCancel; EvGetWithTimeout 3 CtxDone] =
              Some (after (addDoneCallback 9
                             (after (ReturnAFuture main_task_40)
                                [EvBgStart; EvBgReturn; EvGet ChanRecv]))
                      [EvGet ChanRecv; EvCancel; EvGetWithTimeout 3 CtxDone],
                    [RetResult (main_task_40 tt); RetBool false;
                     RetResult (main_task_40 tt)]))
    by (vm_compute; reflexivity).
  pose proof (late_callback_never_runs string _ _ _ _ _ D R) as H.
  vm_compute in H |- *. exact H.
Defined.

(** X11.  There is one callback slot: a second registration before the
    future is done replaces the first.  When the future terminates the
    second callback runs, once, and the first never does. *)
Theorem last_registration_wins :
  forall (V : Type) (s0 : Sys V) (c1 c2 : callback) (evs : list Event)
         (s' : Sys V) (rs : list (Ret V)),
    done (fut s0) = false ->
    forallb (fun e => negb (is_register e)) evs = true ->
    run (addDoneCallback c2 (addDoneCallback c1 s0)) evs = Some (s', rs) ->
    invoked s' = (invoked s0 ++ if done (fut s') then [c2] else [])%list.
Proof.
  intros V s0 c1 c2 evs s' rs Hd Hall R.
  apply (run_callback_log c2 (invoked s0) evs
           (addDoneCallback c2 (addDoneCallback c1 s0)) s' rs); auto.
  simpl. rewrite Hd. now rewrite app_nil_r.
Qed.

Lemma last_registration_wins_witness :
  invoked (after (addDoneCallback 2 (addDoneCallback 1
                                       (ReturnAFuture main_task_50)))
             [EvCancel; EvGet ChanRecv]) = [2].
Proof.
  assert (D : done (fut (ReturnAFuture main_task_50)) = false)
    by (vm_compute; reflexivity).
  assert (N : forallb (fun e => negb (is_register e))
                [EvCancel; EvGet ChanRecv] = true)
    by (vm_compute; reflexivity).
  assert (R : run (addDoneCallback 2 (addDoneCallback 1
                                        (ReturnAFuture main_task_50)))
                [EvCancel; EvGet ChanRecv] =
              Some (after (addDoneCallback 2 (addDoneCallback 1
                                                (ReturnAFuture main_task_50)))
                      [EvCancel; EvGet ChanRecv],
                    [RetBool true; RetResult cancelled_result]))
    by (vm_compute; reflexivity).
  pose proof (last_registration_wins string _ 1 2 _ _ _ D N R) as H.
  vm_compute in H |- *. exact H.
Defined.

(** X12.  A pending retrieval can always be served: from every reachable
    state in which the future is not done, letting the goroutine take the
    steps it has left up to its send makes [get] return the task's own
    result; the goroutine can then close the channel and exit, which
    leaves the future complete and no longer running. *)
Theorem get_returns_task_result_once_sent :
  forall (V : Type) (s : Sys V),
    reachable s ->
    done (fut s) = false ->
    exists (evs : list Event) (s1 s2 s3 : Sys V) (rs rs' : list (Ret V)),
      forallb is_bg_step evs = true /\
      run s evs = Some (s1, rs) /\
      get ChanRecv s1 = Some (s2, task s tt) /\
      result (fut s2) = task s tt /\
      run s2 [EvBgClose; EvBgExit] = Some (s3, rs') /\
      bg s3 = Exited /\
      isRunning (fut s3) = false /\
      complete (fut s3) = true /\
      result (fut s3) = task s tt.
Proof.
  intros V s R Hd.
  pose proof (reachable_bg_before_delivery s R Hd) as B.
  destruct s as [[su er ru dn re cb] g t inv out]. simpl in *. subst dn.
  unfold bg_before_delivery in B. simpl in B.
  destruct B as [E|[E|E]]; subst g.
  - exists [EvBgStart; EvBgReturn].
    destruct (Result.error (t tt)) eqn:Et; destruct cb;
      do 5 eexists; repeat split;
      (simpl; unfold get, getWithContext; simpl; rewrite ?Et; simpl;
       reflexivity).
  - exists [EvBgReturn].
    destruct (Result.error (t tt)) eqn:Et; destruct cb;
      do 5 eexists; repeat split;
      (simpl; unfold get, getWithContext; simpl; rewrite ?Et; simpl;
       reflexivity).
  - exists [].
    destruct (Result.error (t tt)) eqn:Et; destruct cb;
      do 5 eexists; repeat split;
      (simpl; unfold get, getWithContext; simpl; rewrite ?Et; simpl;
       reflexivity).
Qed.

Lemma get_returns_task_result_once_sent_witness :
  exists (evs : list Event) (s1 s2 s3 : Sys string) (rs rs' : list (Ret string)),
    forallb is_bg_step evs = true /\
    run (after (ReturnAFuture main_task_40) [EvAddDoneCallback 4]) evs =
      Some (s1, rs) /\
    get ChanRecv s1 =
      Some (s2, task (after (ReturnAFuture main_task_40)
                        [EvAddDoneCallback 4]) tt) /\
    result (fut s2) =
      task (after (ReturnAFuture main_task_40) [EvAddDoneCallback 4]) tt /\
    run s2 [EvBgClose; EvBgExit] = Some (s3, rs') /\
    bg s3 = Exited /\
    isRunning (fut s3) = false /\
    complete (fut s3) = true /\
    result (fut s3) =
      task (after (ReturnAFuture main_task_40) [EvAddDoneCallback 4]) tt.
Proof.
  apply get_returns_task_result_once_sent.
  - apply reachable_after. vm_compute. reflexivity.
  - vm_compute. reflexivity.
Defined.

